(** * Tool registration, schema derivation and dispatch

    A shallow embedding of [src/model_context_protocol/fastapi.py] (the
    [FastAPIMCPServer] micro-framework), of the tool of [src/app.py] and of
    the example client of [src/client_example.py], together with the
    properties stated about them.

    Layout: Python values and exceptions; the fragment of [inspect] and
    pydantic the module calls into; the module itself; the functions of
    the application; the client; the application object and its route
    table; then the lemmas and theorems.

    Modelling boundary.  Strings are ASCII.  Numbers are integers.  The
    annotations covered are evaluated types: [int], [str], [Optional[...]]
    and the [Any] fallback of [_build_model_for_callable]; validation is
    stated for decimal literals, booleans and values of the declared type.
    Tool names are those for which the router makes a route.
    An annotation that postponed evaluation leaves as a string is no value
    of the model, so the handler of [src/app.py] appears through its
    coroutine, not as a registered callable.  pydantic's schema generator
    is a parameter of [schema] and [list_tools], and the router's matching
    of a path against a route is a parameter of routing: the statements
    hold whatever the two do. *)

From Stdlib Require Import ZArith Ascii String DecimalString.
From stdpp Require Import base option list strings gmap fin_maps.

Set Warnings "-register-all".

Local Open Scope string_scope.
Local Open Scope list_scope.
Local Open Scope Z_scope.

(* ===================================================================== *)
(** ** Python values, exceptions and results *)
(* ===================================================================== *)

Module Py.

(** Python objects that cross the HTTP boundary or appear as parameter
    defaults.  [VEllipsis] is the object [...]; dictionaries keep their
    insertion order. *)
Inductive value : Type :=
| VNone
| VEllipsis
| VBool (b : bool)
| VInt (z : Z)
| VStr (s : string)
| VList (l : list value)
| VDict (l : list (string * value)).

(** The exceptions the program raises or catches; [OtherError] is an
    exception of any class that derives from none of the other three. *)
Inductive exn : Type :=
| TypeError (msg : string)
| ValueError (msg : string)
| HTTPException (status_code : Z) (detail : value)
| OtherError (cls msg : string).

(** How the evaluation of an expression ends. *)
Inductive completion (A : Type) : Type :=
| Returns (a : A)
| Raises (e : exn).
Arguments Returns {A} a.
Arguments Raises {A} e.

(** Sequencing: an exception ends the evaluation. *)
#[global] Instance completion_ret : MRet completion := @Returns.
#[global] Instance completion_bind : MBind completion :=
  fun A B f c =>
    match c with
    | Returns a => f a
    | Raises e => Raises e
    end.

(** What a call of a handler gives back: a plain value, or an awaitable
    (the coroutine of an [async def]) together with how awaiting it
    ends. *)
Inductive pyobject : Type :=
| Plain (v : value)
| Awaitable (c : completion value).

(** [x is ...] *)
Definition is_ellipsis (v : value) : bool :=
  match v with VEllipsis => true | _ => false end.

(** *** Ordered dictionaries ([dict] where the order is observed) *)

Definition odict (V : Type) : Type := list (string * V).

Fixpoint dict_get {V} (d : odict V) (k : string) : option V :=
  match d with
  | [] => None
  | (k', v) :: d' => if decide (k' = k) then Some v else dict_get d' k
  end.

(** [k in d] *)
Definition dict_contains {V} (d : odict V) (k : string) : bool :=
  bool_decide (is_Some (dict_get d k)).

(** [d[k] = v]: an existing key keeps its position, a new key goes last. *)
Fixpoint dict_setitem {V} (d : odict V) (k : string) (v : V) : odict V :=
  match d with
  | [] => [(k, v)]
  | (k', v') :: d' =>
      if decide (k' = k) then (k, v) :: d' else (k', v') :: dict_setitem d' k v
  end.

Definition dict_keys {V} (d : odict V) : list string := d.*1.
Definition dict_values {V} (d : odict V) : list V := d.*2.

(** [d.get(k, default)] *)
Definition dict_get_default {V} (d : odict V) (k : string) (fallback : V) : V :=
  default fallback (dict_get d k).

(** *** String methods (ASCII) *)

Definition is_lower (c : ascii) : bool :=
  let n := N_of_ascii c in ((97 <=? n) && (n <=? 122))%N.
Definition is_upper (c : ascii) : bool :=
  let n := N_of_ascii c in ((65 <=? n) && (n <=? 90))%N.
Definition to_upper (c : ascii) : ascii :=
  if is_lower c then ascii_of_N (N_of_ascii c - 32) else c.
Definition to_lower (c : ascii) : ascii :=
  if is_upper c then ascii_of_N (N_of_ascii c + 32) else c.

(** [s.title()]: the first cased character of every run of letters is
    upper-cased, the others lower-cased. *)
Fixpoint title_from (previous_is_cased : bool) (s : string) : string :=
  match s with
  | EmptyString => EmptyString
  | String c s' =>
      if is_lower c then
        String (if previous_is_cased then c else to_upper c) (title_from true s')
      else if is_upper c then
        String (if previous_is_cased then to_lower c else c) (title_from true s')
      else String c (title_from false s')
  end.
Definition title (s : string) : string := title_from false s.

(** [s.replace(old, "")] and [s.replace(old, new)] for a one-character
    [old]. *)
Fixpoint replace_char (old : ascii) (new : string) (s : string) : string :=
  match s with
  | EmptyString => EmptyString
  | String c s' =>
      if decide (c = old) then new +:+ replace_char old new s'
      else String c (replace_char old new s')
  end.

(** [s.rstrip("/")] *)
Fixpoint rstrip_slash (s : string) : string :=
  match s with
  | EmptyString => EmptyString
  | String c s' =>
      match rstrip_slash s' with
      | EmptyString => if decide (c = "/"%char) then EmptyString else String c EmptyString
      | r => String c r
      end
  end.

(** [str(n)] for a natural number. *)
Definition str_of_nat (n : nat) : string := NilEmpty.string_of_uint (Nat.to_uint n).

End Py.
Import Py.

(* ===================================================================== *)
(** ** [typing] and [inspect]: annotations, signatures, calls *)
(* ===================================================================== *)

Module Typing.

(** Annotations of parameters: [Any], [int], [str], [Optional[t]]. *)
Inductive annotation : Type :=
| Any
| Int
| Str
| Optional (t : annotation).

End Typing.
Import Typing.

Module Inspect.

(** [inspect.Parameter.kind] *)
Inductive kind : Type :=
| POSITIONAL_ONLY
| POSITIONAL_OR_KEYWORD
| VAR_POSITIONAL
| KEYWORD_ONLY
| VAR_KEYWORD.

#[global] Instance kind_eq_dec : EqDecision kind.
Proof. solve_decision. Defined.

(** [inspect.Parameter]; [p_default = None] is [inspect.Signature.empty]. *)
Record parameter : Type := {
  p_name : string;
  p_kind : kind;
  p_default : option value
}.

(** A handler: what [inspect] reports about it, and its code, run on the
    arguments bound by the call.  The parameters of a function have
    distinct names. *)
Record ToolCallable : Type := {
  qualname : string;
  signature : list parameter;
  get_annotations : odict annotation;
  code : odict value -> completion pyobject;
  names_distinct : NoDup (p_name <$> signature)
}.

(** Discharges [NoDup] on a list of literals. *)
Ltac distinct := apply (bool_decide_unpack _); vm_compute; exact I.

Definition is_variadic (p : parameter) : bool :=
  bool_decide (p_kind p = VAR_POSITIONAL \/ p_kind p = VAR_KEYWORD).

Definition accepts_keyword (p : parameter) : bool :=
  bool_decide (p_kind p = POSITIONAL_OR_KEYWORD \/ p_kind p = KEYWORD_ONLY).

Definition is_positional (p : parameter) : bool :=
  bool_decide (p_kind p = POSITIONAL_ONLY \/ p_kind p = POSITIONAL_OR_KEYWORD).

Definition has_var_keyword (sig : list parameter) : bool :=
  bool_decide (Exists (fun p => p_kind p = VAR_KEYWORD) sig).

(** The names a keyword of a call may bind. *)
Definition keyword_names (sig : list parameter) : list string :=
  p_name <$> filter (fun p => accepts_keyword p = true) sig.

Definition positional_only_names (sig : list parameter) : list string :=
  p_name <$> filter (fun p => p_kind p = POSITIONAL_ONLY) sig.

Definition quote (s : string) : string := "'" +:+ s +:+ "'".

Fixpoint join (sep : string) (l : list string) : string :=
  match l with
  | [] => ""
  | [x] => x
  | x :: l' => x +:+ sep +:+ join sep l'
  end.

(** The list of names in the interpreter's "missing argument" messages. *)
Definition format_missing (names : list string) : string :=
  match reverse names with
  | [] => ""
  | [a] => quote a
  | [b; a] => quote a +:+ " and " +:+ quote b
  | z :: front =>
      join ", " (quote <$> reverse front) +:+ ", and " +:+ quote z
  end.

Definition missing_message (fname what : string) (names : list string) : string :=
  fname +:+ "() missing " +:+ str_of_nat (List.length names) +:+ " required " +:+ what
    +:+ " argument" +:+ (if decide (List.length names = 1%nat) then "" else "s")
    +:+ ": " +:+ format_missing names.

(** The keywords of the call that bind no parameter. *)
Definition unmatched_keywords (sig : list parameter) (kwargs : odict value) : odict value :=
  filter (fun kv => kv.1 ∉ keyword_names sig) kwargs.

(** The value a parameter gets in a call by keywords only. *)
Definition local_of (sig : list parameter) (kwargs : odict value) (p : parameter)
  : option value :=
  match p_kind p with
  | VAR_POSITIONAL => Some (VList [])
  | VAR_KEYWORD => Some (VDict (unmatched_keywords sig kwargs))
  | POSITIONAL_ONLY => p_default p
  | _ => match dict_get kwargs (p_name p) with
         | Some v => Some v
         | None => p_default p
         end
  end.

Definition missing_names (sig : list parameter) (kwargs : odict value)
    (which : parameter -> bool) : list string :=
  p_name <$> filter (fun p => which p = true /\ local_of sig kwargs p = None) sig.

(** Argument binding of a call that unpacks [kwargs] as keywords, in the
    interpreter's order:
    keywords first, then missing positional parameters, then missing
    keyword-only parameters. *)
Definition bind (fname : string) (sig : list parameter) (kwargs : odict value)
  : completion (odict value) :=
  match (if has_var_keyword sig then [] else unmatched_keywords sig kwargs) with
  | (k, _) :: _ =>
      match filter (fun n => n ∈ dict_keys kwargs) (positional_only_names sig) with
      | [] => Raises (TypeError
                (fname +:+ "() got an unexpected keyword argument " +:+ quote k))
      | names => Raises (TypeError
                (fname +:+ "() got some positional-only arguments passed as keyword arguments: "
                   +:+ quote (join ", " names)))
      end
  | [] =>
      match missing_names sig kwargs is_positional with
      | (_ :: _) as names => Raises (TypeError (missing_message fname "positional" names))
      | [] =>
          match missing_names sig kwargs (fun p => bool_decide (p_kind p = KEYWORD_ONLY)) with
          | (_ :: _) as names => Raises (TypeError (missing_message fname "keyword-only" names))
          | [] => Returns
              (omap (fun p => pair (p_name p) <$> local_of sig kwargs p) sig)
          end
      end
  end.

(** The call that unpacks [kwargs] as keywords: bind, then run the code. *)
Definition call (func : ToolCallable) (kwargs : odict value) : completion pyobject :=
  locals ← bind (qualname func) (signature func) kwargs;
  code func locals.

End Inspect.
Import Inspect.

(* ===================================================================== *)
(** ** pydantic: models made by [create_model] *)
(* ===================================================================== *)

Module Pydantic.

(** A request body after JSON decoding: a mapping from names to values. *)
Abbreviation payload := (gmap string value).

(** What a validation error echoes as its input. *)
Inductive error_input : Type :=
| InputBody (body : payload)
| InputValue (v : value).

(** One entry of a validation error. *)
Record ErrorDetails : Type := {
  err_type : string;
  err_loc : list string;
  err_msg : string;
  err_input : error_input
}.

Inductive validated (A : Type) : Type :=
| Valid (a : A)
| Invalid (type msg : string).
Arguments Valid {A} a.
Arguments Invalid {A} type msg.

(** Decimal literals with an optional sign. *)
Definition digit_of (c : ascii) : option Z :=
  let n := N_of_ascii c in
  if ((48 <=? n) && (n <=? 57))%N then Some (Z.of_N n - 48) else None.

Fixpoint digits_as_int (acc : Z) (s : string) : option Z :=
  match s with
  | EmptyString => Some acc
  | String c s' =>
      match digit_of c with
      | Some d => digits_as_int (10 * acc + d) s'
      | None => None
      end
  end.

Definition str_as_int (s : string) : option Z :=
  match s with
  | EmptyString => None
  | String "-" (String _ _ as s') => Z.opp <$> digits_as_int 0 s'
  | String "+" (String _ _ as s') => digits_as_int 0 s'
  | _ => digits_as_int 0 s
  end.

(** Validation of one value against an annotation, in the library's
    default (lax) mode: a value of the declared type is kept, a boolean
    or a decimal string is converted for [int], [None] is kept for
    [Optional], anything else is an error.  Of the strings the library
    converts, the decimal literals with an optional sign are covered;
    blanks around the digits, digit separators and a zero fraction are
    not. *)
Fixpoint validate_value (t : annotation) (v : value) : validated value :=
  match t with
  | Any => Valid v
  | Int =>
      match v with
      | VInt z => Valid (VInt z)
      | VBool b => Valid (VInt (if b then 1 else 0))
      | VStr s =>
          match str_as_int s with
          | Some z => Valid (VInt z)
          | None => Invalid "int_parsing"
              "Input should be a valid integer, unable to parse string as an integer"
          end
      | _ => Invalid "int_type" "Input should be a valid integer"
      end
  | Str =>
      match v with
      | VStr s => Valid (VStr s)
      | _ => Invalid "string_type" "Input should be a valid string"
      end
  | Optional t' =>
      match v with
      | VNone => Valid VNone
      | _ => validate_value t' v
      end
  end.

(** A value that already has the declared type. *)
Fixpoint has_type (t : annotation) (v : value) : bool :=
  match t with
  | Any => true
  | Int => match v with VInt _ => true | _ => false end
  | Str => match v with VStr _ => true | _ => false end
  | Optional t' => match v with VNone => true | _ => has_type t' v end
  end.

(** A model class: its name and its fields, each [(annotation, default)]
    with [...] as the default of a required field. *)
Record BaseModel : Type := {
  model_name : string;
  model_fields : odict (annotation * value)
}.

(** A name that starts with an underscore. *)
Definition is_private_name (s : string) : bool :=
  match s with
  | String c _ => bool_decide (c = "_"%char)
  | EmptyString => false
  end.

(** [create_model(model_name, **fields)]: a name that starts with an
    underscore gives no field.  The names the library refuses (those of
    attributes of [BaseModel], as [model_dump]) are outside the model. *)
Definition create_model (name : string) (fields : odict (annotation * value)) : BaseModel :=
  {| model_name := name;
     model_fields := filter (fun f => is_private_name f.1 = false) fields |}.

Definition is_required (f : annotation * value) : bool := is_ellipsis f.2.

(** What validation makes of one field. *)
Inductive field_outcome : Type :=
| FieldSet (v : value)
| FieldDefault (v : value)
| FieldError (e : ErrorDetails).

Definition validate_field (body : payload) (f : string * (annotation * value))
  : field_outcome :=
  match body !! f.1 with
  | Some v =>
      match validate_value f.2.1 v with
      | Valid v' => FieldSet v'
      | Invalid type msg =>
          FieldError {| err_type := type; err_loc := [f.1]; err_msg := msg;
                        err_input := InputValue v |}
      end
  | None =>
      if is_required f.2 then
        FieldError {| err_type := "missing"; err_loc := [f.1];
                      err_msg := "Field required"; err_input := InputBody body |}
      else FieldDefault f.2.2
  end.

(** A validated instance: the value of every field, and the names of the
    fields the input gave ([model_fields_set]). *)
Record instance : Type := {
  field_values : odict value;
  model_fields_set : list string
}.

Definition outcome_error (o : field_outcome) : option ErrorDetails :=
  match o with FieldError e => Some e | _ => None end.
Definition outcome_value (o : field_outcome) : option value :=
  match o with FieldSet v | FieldDefault v => Some v | FieldError _ => None end.
Definition outcome_is_set (o : field_outcome) : bool :=
  match o with FieldSet _ => true | _ => false end.

Definition validation_errors (m : BaseModel) (body : payload) : list ErrorDetails :=
  omap (fun f => outcome_error (validate_field body f)) (model_fields m).

(** [model.model_validate(body)]: every field is looked up by name; keys
    of the body that name no field are ignored; all errors are collected. *)
Definition model_validate (m : BaseModel) (body : payload)
  : list ErrorDetails + instance :=
  match validation_errors m body with
  | [] =>
      inr {| field_values :=
               omap (fun f => pair f.1 <$> outcome_value (validate_field body f))
                    (model_fields m);
             model_fields_set :=
               (filter (fun f => outcome_is_set (validate_field body f) = true)
                       (model_fields m)).*1 |}
  | errs => inl errs
  end.

(** [instance.model_dump(exclude_unset=True)] *)
Definition model_dump_exclude_unset (i : instance) : odict value :=
  filter (fun kv => kv.1 ∈ model_fields_set i) (field_values i).

End Pydantic.
Import Pydantic.

(* ===================================================================== *)
(** ** [src/model_context_protocol/fastapi.py] *)
(* ===================================================================== *)

Module Fastapi.

(** [_ToolDefinition]: the metadata kept for one tool. *)
Record _ToolDefinition : Type := {
  name : string;
  description : string;
  endpoint : string;
  handler : ToolCallable;
  model : BaseModel
}.

(** [_ToolDefinition.schema]; [model_json_schema] is the generator of the
    library, which gives the schema of a model or raises. *)
Definition schema (model_json_schema : BaseModel -> completion (odict value))
    (self : _ToolDefinition) : completion (odict value) :=
  schema ← model_json_schema (model self);
  mret [("type", VStr "object");
        ("properties", dict_get_default schema "properties" (VDict []));
        ("required", dict_get_default schema "required" (VList []))].

Inductive method : Type := GET | POST.

#[global] Instance method_eq_dec : EqDecision method.
Proof. solve_decision. Defined.

(** The endpoint functions the module defines: [list_tools], and one
    [call_tool] closure per tool, over its [func] and [model]. *)
Inductive endpoint_function : Type :=
| list_tools_endpoint
| call_tool_endpoint (func : ToolCallable) (model : BaseModel).

Record route : Type := {
  route_method : method;
  route_path : string;
  route_endpoint : endpoint_function
}.

(** [FastAPIMCPServer]: prefix, router and registry. *)
Record FastAPIMCPServer : Type := {
  _base_path : string;
  _router : list route;
  _tools : odict _ToolDefinition
}.

(** [FastAPIMCPServer.__init__]: the server it makes.  What its last
    line does to the application is [Application.construct]. *)
Definition __init__ (base_path : string) : FastAPIMCPServer :=
  {| _base_path := rstrip_slash base_path;
     _router := [ {| route_method := GET; route_path := "/tools";
                     route_endpoint := list_tools_endpoint |} ];
     _tools := [] |}.

(** One element of the list comprehension of [list_tools]. *)
Definition listed (model_json_schema : BaseModel -> completion (odict value))
    (self : FastAPIMCPServer) (tool : _ToolDefinition) : completion value :=
  input_schema ← schema model_json_schema tool;
  mret (VDict [("name", VStr (name tool));
               ("description", VStr (description tool));
               ("input_schema", VDict input_schema);
               ("endpoint", VStr (_base_path self +:+ endpoint tool))]).

(** [list_tools], the discovery endpoint. *)
Definition list_tools (model_json_schema : BaseModel -> completion (odict value))
    (self : FastAPIMCPServer) : completion value :=
  tools ← mapM (listed model_json_schema self) (dict_values (_tools self));
  mret (VDict [("tools", VList tools)]).

Definition var_args_error : exn :=
  TypeError "Var-args are not supported for MCP tool registration".

Definition duplicate_error (name : string) : exn :=
  ValueError ("A tool named '" +:+ name +:+ "' is already registered").

(** The loop of [_build_model_for_callable] over the parameters. *)
Fixpoint build_fields (annotations : odict annotation) (parameters : list parameter)
    (fields : odict (annotation * value)) : completion (odict (annotation * value)) :=
  match parameters with
  | [] => Returns fields
  | parameter :: rest =>
      if is_variadic parameter then Raises var_args_error
      else
        let annotation := dict_get_default annotations (p_name parameter) Any in
        let default :=
          match p_default parameter with
          | None => VEllipsis
          | Some d => d
          end in
        build_fields annotations rest
          (dict_setitem fields (p_name parameter) (annotation, default))
  end.

(** [FastAPIMCPServer._build_model_for_callable] *)
Definition _build_model_for_callable (name : string) (func : ToolCallable)
  : completion BaseModel :=
  fields ← build_fields (get_annotations func) (signature func) [];
  let model_name := replace_char "_" "" (title name) +:+ "ToolInput" in
  mret (create_model model_name fields).

(** Inside the [try] of [call_tool]: the result of the call, awaited
    when it is awaitable. *)
Definition awaited (result : completion pyobject) : completion value :=
  match result with
  | Returns (Awaitable c) => c
  | Returns (Plain v) => Returns v
  | Raises e => Raises e
  end.

(** The [except TypeError] of [call_tool]. *)
Definition except_TypeError (result : completion value) : completion value :=
  match result with
  | Raises (TypeError msg) => Raises (HTTPException 400 (VStr msg))
  | _ => result
  end.

(** [call_tool], the endpoint function of a tool, on a validated body. *)
Definition call_tool (func : ToolCallable) (payload : instance) : completion value :=
  let data := model_dump_exclude_unset payload in
  except_TypeError (awaited (call func data)).

(** [FastAPIMCPServer.tool(name=..., description=...)(func)]: what the
    decorator gives, and the server afterwards; the router is taken to
    make the route. *)
Definition tool (self : FastAPIMCPServer) (name description : string)
    (func : ToolCallable) : completion ToolCallable * FastAPIMCPServer :=
  if dict_contains (_tools self) name then
    (Raises (duplicate_error name), self)
  else
    match _build_model_for_callable name func with
    | Raises e => (Raises e, self)
    | Returns model =>
        let endpoint_path := "/tools/" +:+ name in
        (Returns func,
         {| _base_path := _base_path self;
            _router := _router self ++
              [ {| route_method := POST; route_path := endpoint_path;
                   route_endpoint := call_tool_endpoint func model |} ];
            _tools := dict_setitem (_tools self) name
              {| name := name; description := description;
                 endpoint := endpoint_path; handler := func; model := model |} |})
    end.

End Fastapi.
Import Fastapi.

(* ===================================================================== *)
(** ** The servers of a program *)
(* ===================================================================== *)

Module Programs.

(** The servers a program can have. *)
Inductive reachable : FastAPIMCPServer -> Prop :=
| reachable_init base_path : reachable (__init__ base_path)
| reachable_tool self n d func :
    reachable self -> reachable (tool self n d func).2.

End Programs.
Import Programs.

(* ===================================================================== *)
(** ** [src/app.py] *)
(* ===================================================================== *)

Module App.

Definition API_KEY_ENV_VAR : string := "SAP_API_KEY".

Definition SAP_PURCHASE_REQUISITION_URL : string :=
  "https://sandbox.api.sap.com/s4hanacloud/sap/opu/odata4/" +:+
  "sap/api_purchaserequisition_2/srvd_a2x/sap/purchaserequisition/0001/" +:+
  "PurchaseReqn".

(** How the request to the remote API ends: [raise_for_status] raises
    (status and text of the response), the body is not JSON, the body
    decodes, or the client itself raises. *)
Inductive upstream : Type :=
| StatusError (status : Z) (text : string)
| InvalidJSON
| Decoded (data : value)
| ClientRaises (e : exn).

(** Truth value of an object in a condition. *)
Definition truthy (v : value) : bool :=
  match v with
  | VNone => false
  | VBool b => b
  | VInt z => negb (z =? 0)
  | VStr s => negb (bool_decide (s = ""))
  | VList l => negb (bool_decide (l = []))
  | VDict l => negb (bool_decide (l = []))
  | VEllipsis => true
  end.

Section environment.

(** [os.getenv], the HTTP client and [json.dumps(..., indent=2)]. *)
Variable getenv : string -> option string.
Variable client_get : string -> odict value -> odict value -> upstream.
Variable json_dumps : value -> string.

(** [_get_api_key] *)
Definition _get_api_key : completion string :=
  match getenv API_KEY_ENV_VAR with
  | Some (String _ _ as api_key) => Returns api_key
  | _ =>
      Raises (HTTPException 500
        (VStr ("The SAP API key is not configured. Set the environment variable "
               +:+ API_KEY_ENV_VAR +:+ " before calling this tool.")))
  end.

(** [_call_sap_api] *)
Definition _call_sap_api (api_key : string) (top select filter_ : value)
  : completion value :=
  let headers :=
    [("APIKey", VStr api_key); ("Accept", VStr "application/json");
     ("Accept-Language", VStr "en")] in
  let params := [("$top", top)] in
  let params := if truthy select then dict_setitem params "$select" select else params in
  let params := if truthy filter_ then dict_setitem params "$filter" filter_ else params in
  match client_get SAP_PURCHASE_REQUISITION_URL headers params with
  | ClientRaises e => Raises e
  | StatusError status text =>
      Raises (HTTPException status (VStr ("SAP API request failed: " +:+ text)))
  | InvalidJSON => Raises (HTTPException 502 (VStr "SAP API returned invalid JSON"))
  | Decoded data => Returns data
  end.

(** The number an object is in a comparison with an integer, if any. *)
Definition as_number (v : value) : option Z :=
  match v with
  | VInt n => Some n
  | VBool b => Some (if b then 1 else 0)
  | _ => None
  end.

(** [type(v).__name__] *)
Definition type_name (v : value) : string :=
  match v with
  | VNone => "NoneType"
  | VEllipsis => "ellipsis"
  | VBool _ => "bool"
  | VInt _ => "int"
  | VStr _ => "str"
  | VList _ => "list"
  | VDict _ => "dict"
  end.

(** The coroutine of [list_purchase_requisitions], on its arguments. *)
Definition list_purchase_requisitions_coroutine (top select filter : value)
  : completion value :=
  match as_number top with
  | Some n =>
      if (n <=? 0) || (200 <? n) then
        Raises (HTTPException 400
          (VStr "Parameter 'top' must be between 1 and 200 for sandbox usage."))
      else
        api_key ← _get_api_key;
        data ← _call_sap_api api_key top select filter;
        mret (VDict [("content",
                VList [VDict [("type", VStr "text");
                              ("text", VStr (json_dumps data))]])])
  | None =>
      Raises (TypeError ("'<=' not supported between instances of '"
                         +:+ type_name top +:+ "' and 'int'"))
  end.

End environment.

End App.

(* ===================================================================== *)
(** ** Sample handlers *)
(* ===================================================================== *)

Module Samples.

Definition echo_result (locals : odict value) : value :=
  VDict [("x", default VNone (dict_get locals "x"))].

(** [def echo(x: str): return {"x": x}] *)
Definition echo : ToolCallable :=
  {| qualname := "echo";
     signature := [ {| p_name := "x"; p_kind := POSITIONAL_OR_KEYWORD; p_default := None |} ];
     get_annotations := [("x", Str)];
     code := fun locals => Returns (Plain (echo_result locals));
     names_distinct := ltac:(distinct) |}.

(** [def echo(x, /): return {"x": x}] *)
Definition echo_positional_only : ToolCallable :=
  {| qualname := "echo";
     signature := [ {| p_name := "x"; p_kind := POSITIONAL_ONLY; p_default := None |} ];
     get_annotations := [];
     code := fun locals => Returns (Plain (echo_result locals));
     names_distinct := ltac:(distinct) |}.

(** [def collect( *args): return None] *)
Definition collect : ToolCallable :=
  {| qualname := "collect";
     signature := [ {| p_name := "args"; p_kind := VAR_POSITIONAL; p_default := None |} ];
     get_annotations := [];
     code := fun _ => Returns (Plain VNone);
     names_distinct := ltac:(distinct) |}.

(** [async def probe(): raise HTTPException(503, "upstream unavailable")] *)
Definition probe : ToolCallable :=
  {| qualname := "probe";
     signature := [];
     get_annotations := [];
     code := fun _ =>
       Returns (Awaitable (Raises (HTTPException 503 (VStr "upstream unavailable"))));
     names_distinct := ltac:(distinct) |}.

(** A server with [echo] registered under the name ["echo"]. *)
Definition echo_server : FastAPIMCPServer :=
  (tool (__init__ "/mcp") "echo" "Echo the input" echo).2.

Definition echo_definition : _ToolDefinition :=
  {| name := "echo"; description := "Echo the input"; endpoint := "/tools/echo";
     handler := echo;
     model := create_model "EchoToolInput" [("x", (Str, VEllipsis))] |}.



(** An environment for [src/app.py]: a configured key, and a remote API
    that answers 503. *)
Definition sample_getenv (_ : string) : option string := Some "secret".
Definition unavailable_client (_ : string) (_ _ : odict value) : App.upstream :=
  App.StatusError 503 "upstream unavailable".
Definition sample_dumps (_ : value) : string := "{}".

End Samples.
Import Samples.

(* ===================================================================== *)
(** ** Notions used in the statements *)
(* ===================================================================== *)

Module Notions.

(** The field [_build_model_for_callable] makes of a parameter. *)
Definition field_of (annotations : odict annotation) (p : parameter)
  : string * (annotation * value) :=
  (p_name p,
   (dict_get_default annotations (p_name p) Any, default VEllipsis (p_default p))).

Definition list_tools_route : route :=
  {| route_method := GET; route_path := "/tools"; route_endpoint := list_tools_endpoint |}.

(** The route [tool] adds for a definition. *)
Definition tool_route (td : _ToolDefinition) : route :=
  {| route_method := POST; route_path := endpoint td;
     route_endpoint := call_tool_endpoint (handler td) (model td) |}.

(** The definition [tool] stores. *)
Definition definition_of (n d : string) (func : ToolCallable) (m : BaseModel)
  : _ToolDefinition :=
  {| name := n; description := d; endpoint := "/tools/" +:+ n;
     handler := func; model := m |}.

(** What holds of every server a program can have. *)
Record server_inv (s : FastAPIMCPServer) : Prop := {
  inv_keys : NoDup (dict_keys (_tools s));
  inv_router : _router s = list_tools_route :: (tool_route <$> dict_values (_tools s));
  inv_entries :
    Forall (fun e : string * _ToolDefinition =>
              name e.2 = e.1 /\ endpoint e.2 = "/tools/" +:+ e.1 /\
              _build_model_for_callable e.1 (handler e.2) = Returns (model e.2))
           (_tools s)
}.

(** The entry of the discovery payload for a stored definition, when the
    generator gave [generated] for its model: the four keys of the
    interface, the [input_schema] holding [type], [properties] and
    [required] only. *)
Definition discovery_entry (prefix : string) (e : string * _ToolDefinition)
    (generated : odict value) : value :=
  VDict [("name", VStr e.1);
         ("description", VStr (description e.2));
         ("input_schema",
          VDict [("type", VStr "object");
                 ("properties", dict_get_default generated "properties" (VDict []));
                 ("required", dict_get_default generated "required" (VList []))]);
         ("endpoint", VStr (prefix +:+ "/tools/" +:+ e.1))].

(** What the handler is given for the key [k]: the validated value of a
    field the payload gives, nothing otherwise. *)
Definition passed_value (m : BaseModel) (body : payload) (k : string) : option value :=
  match dict_get (model_fields m) k, body !! k with
  | Some f, Some v =>
      match validate_value f.1 v with
      | Valid v' => Some v'
      | Invalid _ _ => None
      end
  | _, _ => None
  end.

(** The entry of the dumped dictionary a field gives rise to. *)
Definition set_entry (body : payload) (f : string * (annotation * value))
  : option (string * value) :=
  match validate_field body f with
  | FieldSet v => Some (f.1, v)
  | _ => None
  end.

(** The local variable a parameter gives rise to. *)
Definition local_entry (sig : list parameter) (kwargs : odict value) (p : parameter)
  : option (string * value) :=
  pair (p_name p) <$> local_of sig kwargs p.

(** A parameter whose default, when it is the object [...], is taken
    away. *)
Definition without_ellipsis (p : parameter) : parameter :=
  {| p_name := p_name p; p_kind := p_kind p;
     p_default := match p_default p with
                  | Some VEllipsis => None
                  | d => d
                  end |}.

End Notions.
Import Notions.

(* ===================================================================== *)
(** ** [src/client_example.py] *)
(* ===================================================================== *)

Module Client.

(** [s.endswith("/")] *)
Fixpoint endswith_slash (s : string) : bool :=
  match s with
  | EmptyString => false
  | String c EmptyString => bool_decide (c = "/"%char)
  | String _ s' => endswith_slash s'
  end.

(** [s[:-1]] *)
Fixpoint without_last (s : string) : string :=
  match s with
  | EmptyString => EmptyString
  | String _ EmptyString => EmptyString
  | String c s' => String c (without_last s')
  end.

(** [_normalise_base_url] *)
Definition _normalise_base_url (url : string) : string :=
  if endswith_slash url then without_last url else url.

(** The requests of the script. *)
Inductive request : Type :=
| Get (url : string)
| Post (url : string) (json : payload).

(** The HTTP client: how a request ends, in the terms of [App.upstream]
    ([raise_for_status] raises, the body is not JSON, the body decodes, or
    the client itself raises). *)
Definition AsyncClient : Type := request -> App.upstream.

(** What follows a request in [_get_json] and [_post_json]:
    [response.raise_for_status()], then [response.json()]. *)
Definition checked_json (u : App.upstream) : completion value :=
  match u with
  | App.StatusError status text => Raises (OtherError "HTTPStatusError" text)
  | App.InvalidJSON => Raises (ValueError "response is not JSON")
  | App.Decoded data => Returns data
  | App.ClientRaises e => Raises e
  end.

(** A computation that sends requests: the requests sent so far are
    threaded through. *)
Definition session (A : Type) : Type := list request -> list request * completion A.

Definition session_ret {A} (a : A) : session A := fun sent => (sent, Returns a).

Definition session_bind {A B} (c : session A) (k : A -> session B) : session B :=
  fun sent =>
    match c sent with
    | (sent', Returns a) => k a sent'
    | (sent', Raises e) => (sent', Raises e)
    end.

Notation "x <- c ;; k" := (session_bind c (fun x => k))
  (at level 100, c at next level, right associativity, only parsing).

(** [_get_json] *)
Definition _get_json (client : AsyncClient) (url : string) : session value :=
  fun sent => (sent ++ [Get url], checked_json (client (Get url))).

(** [_post_json] *)
Definition _post_json (client : AsyncClient) (url : string) (json : payload)
  : session value :=
  fun sent => (sent ++ [Post url json], checked_json (client (Post url json))).

(** [tools_payload.get("tools")]: only a dictionary has [get]. *)
Definition get_tools (tools_payload : value) : completion value :=
  match tools_payload with
  | VDict d => Returns (dict_get_default d "tools" VNone)
  | _ => Raises (OtherError "AttributeError" "object has no attribute 'get'")
  end.

(** [main]; what it prints is left out. *)
Definition main (client : AsyncClient) (base_url : string) (top : Z) : session unit :=
  let base_url := _normalise_base_url base_url in
  health <- _get_json client (base_url +:+ "/") ;;
  tools_payload <- _get_json client (base_url +:+ "/mcp/tools") ;;
  tools <- (fun sent => (sent, get_tools tools_payload)) ;;
  if negb (App.truthy tools) then session_ret tt
  else
    let tool_endpoint := base_url +:+ "/mcp/tools/list_purchase_requisitions" in
    result <- _post_json client tool_endpoint {[ "top" := VInt top ]} ;;
    session_ret tt.

End Client.

(* ===================================================================== *)
(** ** The application and its routes *)
(* ===================================================================== *)

Module Application.

(** A route of the application: a copy of a route of the server's router,
    made by [include_router], or a route of the application's own (its
    documentation pages, the health probe of [src/app.py]). *)
Inductive app_route : Type :=
| Included (r : route)
| Host (m : method) (path : string).

Definition app_route_method (r : app_route) : method :=
  match r with
  | Included r => route_method r
  | Host m _ => m
  end.

Definition app_route_path (r : app_route) : string :=
  match r with
  | Included r => route_path r
  | Host _ path => path
  end.

(** [s.startswith("/")] *)
Definition startswith_slash (s : string) : bool :=
  match s with
  | String c _ => bool_decide (c = "/"%char)
  | EmptyString => false
  end.

Definition with_prefix (prefix : string) (r : route) : route :=
  {| route_method := route_method r;
     route_path := prefix +:+ route_path r;
     route_endpoint := route_endpoint r |}.

(** [app.include_router(router, prefix=prefix)]: the checks on the prefix,
    then one new route in the application for every route the router holds
    at the time of the call.  A route given to the router afterwards is no
    route of the application. *)
Definition include_router (routes : list app_route) (router : list route)
    (prefix : string) : completion (list app_route) :=
  if bool_decide (prefix = "") then
    if bool_decide (Exists (fun r => route_path r = "") router) then
      Raises (OtherError "FastAPIError" "Prefix and path cannot be both empty")
    else Returns (routes ++ (Included <$> (with_prefix prefix <$> router)))
  else if negb (startswith_slash prefix) then
    Raises (OtherError "AssertionError" "A path prefix must start with '/'")
  else if Client.endswith_slash prefix then
    Raises (OtherError "AssertionError"
              "A path prefix must not end with '/', as the routes will start with '/'")
  else Returns (routes ++ (Included <$> (with_prefix prefix <$> router))).

(** An application together with the server made on it: the [app] and
    the [server] of [src/app.py]. *)
Record deployment : Type := {
  app : list app_route;
  server : FastAPIMCPServer
}.

(** [FastAPIMCPServer(app, base_path=base_path)], on an application with
    the routes [routes]: [__init__] ends with [include_router]
    (line 90). *)
Definition construct (routes : list app_route) (base_path : string)
  : completion deployment :=
  let self := __init__ base_path in
  routes' ← include_router routes (_router self) (_base_path self);
  mret {| app := routes'; server := self |}.

(** [server.tool(name=..., description=...)(func)]: the decorator writes
    to the router and the registry of the server (lines 115-122); the
    application is not among what it touches. *)
Definition register (d : deployment) (name description : string) (func : ToolCallable)
  : completion ToolCallable * deployment :=
  let outcome := tool (server d) name description func in
  (outcome.1, {| app := app d; server := outcome.2 |}).

(** [app.get(path)(f)], [app.post(path)(f)]: a route of the application's
    own, as [root] in [src/app.py]. *)
Definition add_route (d : deployment) (m : method) (path : string) : deployment :=
  {| app := app d ++ [Host m path]; server := server d |}.

(** The routes of an application made by [FastAPI(...)]. *)
Definition FastAPI_routes : list app_route :=
  [ Host GET "/openapi.json"; Host GET "/docs";
    Host GET "/docs/oauth2-redirect"; Host GET "/redoc" ].

(** A route to the [call_tool] of some tool. *)
Definition mounts_tool (r : app_route) : bool :=
  match r with
  | Included r =>
      match route_endpoint r with
      | call_tool_endpoint _ _ => true
      | list_tools_endpoint => false
      end
  | Host _ _ => false
  end.

(** The deployments a program can have: a server made on an application
    that has no route to a tool, then registrations and routes of the
    application's own, in any order. *)
Inductive deployed : deployment -> Prop :=
| deployed_construct routes base_path d :
    Forall (fun r => mounts_tool r = false) routes ->
    construct routes base_path = Returns d -> deployed d
| deployed_register d n description func :
    deployed d -> deployed (register d n description func).2
| deployed_add_route d m path :
    deployed d -> deployed (add_route d m path).

(** *** Routing *)

(** What the router of the application makes of a request: a route
    handles it; only routes for other methods have the path (the answer is
    405); the path with its trailing slash added or taken away has a route
    (the answer is a redirect, 307); nothing matches (the answer is
    404). *)
Inductive routed : Type :=
| Handled (r : app_route)
| MethodNotAllowed
| Redirected (path : string)
| NotFound.

(** The path tried when nothing matches. *)
Definition slash_variant (path : string) : string :=
  if Client.endswith_slash path then rstrip_slash path else path +:+ "/".

Section routing.

(** Whether the path of a route, as the router compiles it, matches the
    path of a request. *)
Variable path_matches : string -> string -> bool.

(** The router: the first route that matches path and method; else the
    first that matches the path; else the redirect; else nothing. *)
Definition route_request (routes : list app_route) (m : method) (path : string)
  : routed :=
  match list_find (fun r => path_matches (app_route_path r) path = true /\
                            app_route_method r = m) routes with
  | Some (_, r) => Handled r
  | None =>
      match list_find (fun r => path_matches (app_route_path r) path = true) routes with
      | Some _ => MethodNotAllowed
      | None =>
          if bool_decide (path <> "/") &&
             bool_decide (Exists (fun r => path_matches (app_route_path r)
                                             (slash_variant path) = true) routes)
          then Redirected (slash_variant path)
          else NotFound
      end
  end.

End routing.

(** The endpoint function of the server that a request runs, if any. *)
Definition endpoint_run (o : routed) : option endpoint_function :=
  match o with
  | Handled (Included r) => Some (route_endpoint r)
  | _ => None
  end.

(** Matching for routes whose path has no parameter: the path itself. *)
Definition same_path (route_path path : string) : bool :=
  bool_decide (route_path = path).

End Application.
Import Application.

(* ===================================================================== *)
(** ** Further sample handlers and notions *)
(* ===================================================================== *)

Module Fixtures.

(** [def keep(x=...): return x] *)
Definition keep : ToolCallable :=
  {| qualname := "keep";
     signature := [ {| p_name := "x"; p_kind := POSITIONAL_OR_KEYWORD;
                       p_default := Some VEllipsis |} ];
     get_annotations := [];
     code := fun locals => Returns (Plain (default VNone (dict_get locals "x")));
     names_distinct := ltac:(distinct) |}.

(** [def keep(x): return x] *)
Definition keep_without_default : ToolCallable :=
  {| qualname := "keep";
     signature := [ {| p_name := "x"; p_kind := POSITIONAL_OR_KEYWORD;
                       p_default := None |} ];
     get_annotations := [];
     code := fun locals => Returns (Plain (default VNone (dict_get locals "x")));
     names_distinct := ltac:(distinct) |}.

(** [def lookup(top: int = 50, select: Optional[str] = None):
         return {"top": top, "select": select}],
    in a module whose annotations are evaluated. *)
Definition lookup : ToolCallable :=
  {| qualname := "lookup";
     signature :=
       [ {| p_name := "top"; p_kind := POSITIONAL_OR_KEYWORD; p_default := Some (VInt 50) |};
         {| p_name := "select"; p_kind := POSITIONAL_OR_KEYWORD; p_default := Some VNone |} ];
     get_annotations := [("top", Int); ("select", Optional Str)];
     code := fun locals =>
       Returns (Plain (VDict [("top", default VNone (dict_get locals "top"));
                              ("select", default VNone (dict_get locals "select"))]));
     names_distinct := ltac:(distinct) |}.

(** The model of [lookup]. *)
Definition lookup_model : BaseModel :=
  create_model "LookupToolInput"
    [("top", (Int, VInt 50)); ("select", (Optional Str, VNone))].

(** A remote API that answers every request with the same data. *)
Definition steady_client (data : value) (_ : string) (_ _ : odict value) : App.upstream :=
  App.Decoded data.

(** An HTTP client for the script whose discovery lists no tool. *)
Definition empty_discovery (r : Client.request) : App.upstream :=
  App.Decoded (VDict [("tools", VList [])]).

(** [n] slashes. *)
Fixpoint slashes (n : nat) : string :=
  match n with
  | O => EmptyString
  | S n' => String "/" (slashes n')
  end.

(** The three requests of the script, in order. *)
Definition planned_requests (base_url : string) (top : Z) : list Client.request :=
  [ Client.Get (Client._normalise_base_url base_url +:+ "/");
    Client.Get (Client._normalise_base_url base_url +:+ "/mcp/tools");
    Client.Post (Client._normalise_base_url base_url
                   +:+ "/mcp/tools/list_purchase_requisitions")
                {[ "top" := VInt top ]} ].

(** [app = FastAPI(...)] followed by [server = FastAPIMCPServer(app)]. *)
Definition fresh_deployment : deployment :=
  {| app := FastAPI_routes ++ [Included (with_prefix "/mcp" list_tools_route)];
     server := __init__ "/mcp" |}.

(** The same after one registration. *)
Definition deployment_with (n d : string) (func : ToolCallable) : deployment :=
  (register fresh_deployment n d func).2.

Definition echo_deployment : deployment :=
  deployment_with "echo" "Echo the input" echo.



(** A generator that cannot make the schema of any model. *)
Definition failing_generator (_ : BaseModel) : completion (odict value) :=
  Raises (OtherError "PydanticUserError" "the model is not fully defined").

(** A generator that gives the same dictionary for every model. *)
Definition constant_generator (generated : odict value) (_ : BaseModel)
  : completion (odict value) :=
  Returns generated.

End Fixtures.
Import Fixtures.

(* ===================================================================== *)
(** ** Ordered dictionaries *)
(* ===================================================================== *)

Section dict_facts.
Context {V : Type}.
Implicit Types (d : odict V) (k : string) (v : V).

Lemma dict_get_Some_elem d k v : dict_get d k = Some v -> (k, v) ∈ d.
Proof.
  induction d as [|[k' v'] d IH]; simpl; [done|].
  case_decide; intros Hget.
  - simplify_eq. left.
  - right. auto.
Qed.

Lemma dict_get_None d k : dict_get d k = None <-> k ∉ dict_keys d.
Proof.
  unfold dict_keys. induction d as [|[k' v'] d IH]; simpl.
  - split; [intros _; apply not_elem_of_nil | done].
  - rewrite not_elem_of_cons. case_decide as Hk.
    + split; [done | intros [Hne _]; congruence].
    + rewrite IH. split; [intros; split; [congruence | done] | by intros [_ ?]].
Qed.

Lemma dict_get_is_Some d k : is_Some (dict_get d k) <-> k ∈ dict_keys d.
Proof.
  rewrite <- not_eq_None_Some, dict_get_None.
  destruct (decide (k ∈ dict_keys d)); tauto.
Qed.

Lemma dict_contains_true d k : dict_contains d k = true <-> k ∈ dict_keys d.
Proof.
  unfold dict_contains. rewrite <- dict_get_is_Some.
  split; [apply bool_decide_eq_true_1 | apply bool_decide_eq_true_2].
Qed.

Lemma dict_contains_false d k : dict_contains d k = false <-> k ∉ dict_keys d.
Proof.
  rewrite <- dict_contains_true. destruct (dict_contains d k); split; try done.
  all: intros Hn; by destruct Hn.
Qed.

Lemma dict_setitem_fresh d k v :
  k ∉ dict_keys d -> dict_setitem d k v = d ++ [(k, v)].
Proof.
  unfold dict_keys. induction d as [|[k' v'] d IH]; simpl; [done|].
  rewrite not_elem_of_cons. intros [Hne Hd].
  case_decide; [congruence|]. by rewrite IH.
Qed.

Lemma dict_get_app d d' k :
  dict_get (d ++ d') k =
    match dict_get d k with Some v => Some v | None => dict_get d' k end.
Proof.
  induction d as [|[k' v'] d IH]; simpl; [done|]. by case_decide.
Qed.

Lemma dict_get_elem_NoDup d k v :
  NoDup (dict_keys d) -> (k, v) ∈ d -> dict_get d k = Some v.
Proof.
  unfold dict_keys. induction d as [|[k' v'] d IH]; simpl.
  - intros _ H. by apply elem_of_nil in H.
  - rewrite NoDup_cons, elem_of_cons. intros [Hk Hd] [Heq|Hin].
    + simplify_eq. by rewrite decide_True.
    + rewrite decide_False; [auto|].
      intros ->. apply Hk. apply list_elem_of_fmap. by exists (k, v).
Qed.

Lemma dict_keys_app d d' : dict_keys (d ++ d') = dict_keys d ++ dict_keys d'.
Proof. unfold dict_keys. apply fmap_app. Qed.

End dict_facts.

(* ===================================================================== *)
(** ** Schema derivation *)
(* ===================================================================== *)

Section build_facts.
Implicit Types (ps : list parameter) (acc : odict (annotation * value)).

Lemma build_fields_variadic annotations ps acc :
  Exists (fun p => is_variadic p = true) ps ->
  build_fields annotations ps acc = Raises var_args_error.
Proof.
  intros Hex. revert acc.
  induction ps as [|p ps IH]; intros acc; simpl.
  - by apply Exists_nil in Hex.
  - destruct (is_variadic p) eqn:Hp; [done|].
    apply IH. apply Exists_cons in Hex as [Hv|Hv]; [congruence | done].
Qed.

Lemma build_fields_ok annotations ps acc :
  Forall (fun p => is_variadic p = false) ps ->
  NoDup (dict_keys acc ++ (p_name <$> ps)) ->
  build_fields annotations ps acc = Returns (acc ++ (field_of annotations <$> ps)).
Proof.
  intros Hall. revert acc.
  induction Hall as [|p ps Hp Hall IH]; intros acc Hnd; simpl.
  - by rewrite app_nil_r.
  - rewrite Hp. rewrite dict_setitem_fresh.
    + rewrite IH.
      * by rewrite <- app_assoc.
      * rewrite dict_keys_app. simpl. by rewrite <- app_assoc.
    + apply NoDup_app in Hnd as (_ & Hdis & _).
      intros Hin. apply (Hdis _ Hin). simpl. left.
Qed.

Lemma build_fields_Returns annotations ps acc fields :
  build_fields annotations ps acc = Returns fields ->
  Forall (fun p => is_variadic p = false) ps.
Proof.
  revert acc. induction ps as [|p ps IH]; intros acc; simpl; [constructor|].
  destruct (is_variadic p) eqn:Hp; [done|].
  intros Hb. constructor; [done | eauto].
Qed.

Lemma build_model_variadic n func :
  Exists (fun p => is_variadic p = true) (signature func) ->
  _build_model_for_callable n func = Raises var_args_error.
Proof.
  intros Hex. unfold _build_model_for_callable.
  by rewrite build_fields_variadic.
Qed.

Lemma build_model_Raises n func e :
  _build_model_for_callable n func = Raises e -> e = var_args_error.
Proof.
  unfold _build_model_for_callable.
  destruct (build_fields _ _ _) as [fields|e'] eqn:Hb; simpl; [done|].
  intros [= <-].
  destruct (decide (Exists (fun p => is_variadic p = true) (signature func)))
    as [Hex|Hno].
  - rewrite build_fields_variadic in Hb by done. congruence.
  - rewrite build_fields_ok in Hb; [done| |apply names_distinct].
    apply Forall_forall. intros p Hp.
    destruct (is_variadic p) eqn:Hv; [|done].
    exfalso. apply Hno. apply Exists_exists. eauto.
Qed.

End build_facts.

(* ===================================================================== *)
(** ** Registration *)
(* ===================================================================== *)

Section registry_facts.
Implicit Types (s : FastAPIMCPServer) (n d : string) (func : ToolCallable).

Lemma tool_duplicate s n d func :
  n ∈ dict_keys (_tools s) ->
  tool s n d func = (Raises (duplicate_error n), s).
Proof.
  intros Hin. unfold tool.
  by rewrite (proj2 (dict_contains_true _ _) Hin).
Qed.

Lemma tool_rejected s n d func e :
  n ∉ dict_keys (_tools s) ->
  _build_model_for_callable n func = Raises e ->
  tool s n d func = (Raises e, s).
Proof.
  intros Hin Hb. unfold tool.
  by rewrite (proj2 (dict_contains_false _ _) Hin), Hb.
Qed.

Lemma tool_accepted s n d func m :
  n ∉ dict_keys (_tools s) ->
  _build_model_for_callable n func = Returns m ->
  tool s n d func =
    (Returns func,
     {| _base_path := _base_path s;
        _router := _router s ++ [tool_route (definition_of n d func m)];
        _tools := _tools s ++ [(n, definition_of n d func m)] |}).
Proof.
  intros Hin Hb. unfold tool.
  rewrite (proj2 (dict_contains_false _ _) Hin), Hb.
  by rewrite dict_setitem_fresh.
Qed.

(** The three ways a registration ends. *)
Lemma tool_cases s n d func :
  (n ∈ dict_keys (_tools s) /\ tool s n d func = (Raises (duplicate_error n), s)) \/
  ((n ∉ dict_keys (_tools s)) /\
   _build_model_for_callable n func = Raises var_args_error /\
   tool s n d func = (Raises var_args_error, s)) \/
  (exists m, (n ∉ dict_keys (_tools s)) /\
     _build_model_for_callable n func = Returns m /\
     tool s n d func =
       (Returns func,
        {| _base_path := _base_path s;
           _router := _router s ++ [tool_route (definition_of n d func m)];
           _tools := _tools s ++ [(n, definition_of n d func m)] |})).
Proof.
  destruct (decide (n ∈ dict_keys (_tools s))) as [Hin|Hin].
  - left. split; [done|]. by apply tool_duplicate.
  - right. destruct (_build_model_for_callable n func) as [m|e] eqn:Hb.
    + right. exists m. split; [done|]. split; [done|]. by apply tool_accepted.
    + left. pose proof (build_model_Raises _ _ _ Hb) as ->.
      split; [done|]. split; [done|]. by apply tool_rejected.
Qed.

Lemma init_inv base_path : server_inv (__init__ base_path).
Proof. split; simpl; [apply NoDup_nil_2 | done | constructor]. Qed.

Lemma tool_inv s n d func : server_inv s -> server_inv (tool s n d func).2.
Proof.
  intros [Hk Hr He].
  destruct (tool_cases s n d func) as [[_ ->]|[(_ & _ & ->)|(m & Hn & Hb & ->)]];
    [done|done|].
  split; simpl.
  - rewrite dict_keys_app. simpl. apply NoDup_app. split; [done|].
    split; [|apply NoDup_singleton].
    intros x Hx Hx'. apply list_elem_of_singleton in Hx'. by subst.
  - rewrite Hr. unfold dict_values. by rewrite !fmap_app.
  - apply Forall_app. split; [done|]. by repeat constructor.
Qed.

Lemma reachable_inv s : reachable s -> server_inv s.
Proof. induction 1; [apply init_inv | by apply tool_inv]. Qed.

End registry_facts.

(* ===================================================================== *)
(** ** Validation *)
(* ===================================================================== *)

Section validation_facts.
Implicit Types (m : BaseModel) (body : payload) (f : string * (annotation * value)).

Lemma has_type_validate t v : has_type t v = true -> validate_value t v = Valid v.
Proof.
  induction t as [| | |t IH]; simpl.
  - done.
  - by destruct v.
  - by destruct v.
  - destruct v; auto.
Qed.

Lemma omap_nil_iff {A B} (g : A -> option B) (l : list A) :
  omap g l = [] <-> Forall (fun a => g a = None) l.
Proof.
  induction l as [|a l IH]; simpl.
  - split; [constructor | done].
  - rewrite Forall_cons. destruct (g a); [|tauto].
    split; [done | intros [? _]; done].
Qed.

Lemma validation_errors_nil m body :
  validation_errors m body = [] <->
  Forall (fun f => outcome_error (validate_field body f) = None) (model_fields m).
Proof. apply omap_nil_iff. Qed.

Lemma model_validate_inr m body inst :
  model_validate m body = inr inst <->
  validation_errors m body = [] /\
  inst =
    {| field_values :=
         omap (fun f => pair f.1 <$> outcome_value (validate_field body f))
              (model_fields m);
       model_fields_set :=
         (filter (fun f => outcome_is_set (validate_field body f) = true)
                 (model_fields m)).*1 |}.
Proof.
  unfold model_validate. destruct (validation_errors m body) as [|e l].
  - split; [by intros [= <-] | by intros [_ ->]].
  - split; [done | by intros [? _]].
Qed.

Lemma unique_field (fields : odict (annotation * value)) f g :
  NoDup (dict_keys fields) -> f ∈ fields -> g ∈ fields -> f.1 = g.1 -> f = g.
Proof.
  destruct f as [k a], g as [k' b]. simpl. intros Hnd Hf Hg <-.
  apply (dict_get_elem_NoDup _ _ _ Hnd) in Hf, Hg. congruence.
Qed.

Lemma dump_filter body (S : list string) (l : odict (annotation * value)) :
  Forall (fun f => f.1 ∈ S <-> outcome_is_set (validate_field body f) = true) l ->
  filter (fun kv : string * value => kv.1 ∈ S)
         (omap (fun f => pair f.1 <$> outcome_value (validate_field body f)) l)
  = omap (set_entry body) l.
Proof.
  induction 1 as [|f l Hf _ IH]; [done|]. csimpl. unfold set_entry at 1.
  destruct (validate_field body f) as [v|v|e]; simpl in *.
  - rewrite filter_cons_True by (simpl; tauto). by rewrite IH.
  - rewrite filter_cons_False; [done|]. simpl. intros Hin. by apply Hf in Hin.
  - done.
Qed.

(** [model_dump(exclude_unset=True)] holds the fields the payload gave. *)
Lemma dump_as_omap m body inst :
  NoDup (dict_keys (model_fields m)) ->
  model_validate m body = inr inst ->
  model_dump_exclude_unset inst = omap (set_entry body) (model_fields m).
Proof.
  intros Hnd Hv. apply model_validate_inr in Hv as [_ ->].
  unfold model_dump_exclude_unset. simpl. apply dump_filter.
  apply Forall_forall. intros f Hf. rewrite list_elem_of_fmap. split.
  - intros (g & Hfg & Hg). apply list_elem_of_filter in Hg as [Hset Hg].
    by rewrite (unique_field _ f g Hnd Hf Hg Hfg).
  - intros Hset. exists f. split; [done|]. by apply list_elem_of_filter.
Qed.

Lemma set_entry_absent body k (l : odict (annotation * value)) :
  body !! k = None -> dict_get (omap (set_entry body) l) k = None.
Proof.
  intros Hk. induction l as [|f l IH]; [done|]. csimpl.
  unfold set_entry at 1, validate_field.
  destruct (body !! f.1) as [v|] eqn:Hf.
  - destruct (validate_value f.2.1 v); [|done]. simpl.
    rewrite decide_False; [done|]. intros Heq. rewrite Heq in Hf. congruence.
  - by destruct (is_required f.2).
Qed.

Lemma set_entry_lookup m body k :
  validation_errors m body = [] ->
  dict_get (omap (set_entry body) (model_fields m)) k = passed_value m body k.
Proof.
  rewrite validation_errors_nil. unfold passed_value.
  induction 1 as [|f l Hf _ IH]; [done|]. csimpl.
  destruct f as [k' [t dflt]]. simpl. case_decide as Hk.
  - subst k'. unfold set_entry at 1. unfold validate_field in *. simpl in *.
    destruct (body !! k) as [v|] eqn:Hb.
    + destruct (validate_value t v); [|done]. simpl. by rewrite decide_True.
    + destruct (is_required (t, dflt)); by apply set_entry_absent.
  - rewrite <- IH. unfold set_entry at 1.
    destruct (validate_field body (k', (t, dflt))); [|done..].
    simpl. by rewrite decide_False.
Qed.

(** The keywords given to the handler, key by key. *)
Lemma dump_lookup m body inst k :
  NoDup (dict_keys (model_fields m)) ->
  model_validate m body = inr inst ->
  dict_get (model_dump_exclude_unset inst) k = passed_value m body k.
Proof.
  intros Hnd Hv. rewrite (dump_as_omap m body inst) by done.
  apply set_entry_lookup. by apply model_validate_inr in Hv as [? _].
Qed.

End validation_facts.

(* ===================================================================== *)
(** ** Argument binding *)
(* ===================================================================== *)

Section bind_facts.
Implicit Types (sig : list parameter) (kwargs : odict value).

Lemma filter_none {A} (P : A -> Prop) `{!forall x, Decision (P x)} (l : list A) :
  Forall (fun x => ~ P x) l -> filter P l = [].
Proof.
  induction 1 as [|a l Ha _ IH]; [done|]. by rewrite filter_cons_False.
Qed.

Lemma bind_Returns fname sig kwargs locals :
  bind fname sig kwargs = Returns locals ->
  locals = omap (local_entry sig kwargs) sig.
Proof.
  unfold bind.
  destruct (if has_var_keyword sig then _ else _) as [|[k ?] ?].
  - destruct (missing_names sig kwargs is_positional); [|done].
    destruct (missing_names sig kwargs _); [|done]. by intros [= <-].
  - by destruct (filter _ (positional_only_names sig)).
Qed.

Lemma local_entry_lookup sig0 kwargs sig p :
  NoDup (p_name <$> sig) -> p ∈ sig ->
  dict_get (omap (local_entry sig0 kwargs) sig) (p_name p) = local_of sig0 kwargs p.
Proof.
  induction sig as [|q sig IH]; csimpl.
  - intros _ Hp. by apply elem_of_nil in Hp.
  - rewrite NoDup_cons, elem_of_cons. intros [Hq Hnd] [->|Hp].
    + unfold local_entry at 1. destruct (local_of sig0 kwargs q) as [v|] eqn:Hl; simpl.
      * by rewrite decide_True.
      * destruct (dict_get _ _) as [v|] eqn:Hget; [|done].
        exfalso. apply Hq. apply dict_get_Some_elem, list_elem_of_omap in Hget
          as (q' & Hq' & Hentry).
        unfold local_entry in Hentry. apply list_elem_of_fmap. exists q'.
        destruct (local_of sig0 kwargs q'); by simplify_eq/=.
    + assert (p_name q <> p_name p) as Hne.
      { intros Heq. apply Hq. rewrite Heq. apply list_elem_of_fmap. by exists p. }
      unfold local_entry at 1. destruct (local_of sig0 kwargs q); simpl.
      * rewrite decide_False by done. by apply IH.
      * by apply IH.
Qed.

(** The arguments the code runs on, parameter by parameter. *)
Lemma bind_lookup fname sig kwargs locals p :
  NoDup (p_name <$> sig) -> p ∈ sig ->
  bind fname sig kwargs = Returns locals ->
  dict_get locals (p_name p) = local_of sig kwargs p.
Proof.
  intros Hnd Hp Hb. rewrite (bind_Returns _ _ _ _ Hb).
  by apply local_entry_lookup.
Qed.

End bind_facts.

(* ===================================================================== *)
(** ** Registered tools *)
(* ===================================================================== *)

Section registered_facts.
Implicit Types (s : FastAPIMCPServer) (n : string) (td : _ToolDefinition).

Lemma registered_entry s n td :
  reachable s -> dict_get (_tools s) n = Some td ->
  name td = n /\ endpoint td = "/tools/" +:+ n /\
  _build_model_for_callable n (handler td) = Returns (model td).
Proof.
  intros Hr Hget. destruct (reachable_inv s Hr) as [_ _ He].
  rewrite Forall_forall in He. by apply (He (n, td)), dict_get_Some_elem.
Qed.

Lemma registered_route s n td :
  reachable s -> dict_get (_tools s) n = Some td -> tool_route td ∈ _router s.
Proof.
  intros Hr Hget. destruct (reachable_inv s Hr) as [_ -> _].
  apply elem_of_cons. right. apply list_elem_of_fmap. exists td. split; [done|].
  apply list_elem_of_fmap. exists (n, td). split; [done|].
  by apply dict_get_Some_elem.
Qed.

End registered_facts.

Lemma sample_reachable n d func : reachable (tool (__init__ "/mcp") n d func).2.
Proof. apply reachable_tool, reachable_init. Qed.

(* ===================================================================== *)
(** ** The routes of the application *)
(* ===================================================================== *)

Section application_facts.
Implicit Types (d : deployment) (routes : list app_route).

Lemma include_router_Returns routes router prefix routes' :
  include_router routes router prefix = Returns routes' ->
  routes' = routes ++ (Included <$> (with_prefix prefix <$> router)).
Proof.
  unfold include_router. repeat case_match; congruence.
Qed.

Lemma construct_Returns routes base_path d :
  construct routes base_path = Returns d ->
  d = {| app := routes ++
           [Included (with_prefix (rstrip_slash base_path) list_tools_route)];
         server := __init__ base_path |}.
Proof.
  unfold construct.
  destruct (include_router _ _ _) as [routes'|e] eqn:Hinc; simpl; [|done].
  intros [= <-]. by rewrite (include_router_Returns _ _ _ _ Hinc).
Qed.

(** The application never gets a route to a tool: [include_router] ran
    when the router held the discovery route only, and nothing else
    copies routes into the application. *)
Lemma deployed_mounts_no_tool d :
  deployed d -> Forall (fun r => mounts_tool r = false) (app d).
Proof.
  induction 1 as [routes base_path d Hroutes Hc|d n description func _ IH|d m path _ IH].
  - rewrite (construct_Returns _ _ _ Hc). simpl.
    apply Forall_app. split; [done|]. by repeat constructor.
  - done.
  - simpl. apply Forall_app. split; [done|]. by repeat constructor.
Qed.

Lemma deployed_reachable d : deployed d -> reachable (server d).
Proof.
  induction 1 as [routes base_path d Hroutes Hc|d n description func _ IH|d m path _ IH].
  - rewrite (construct_Returns _ _ _ Hc). apply reachable_init.
  - simpl. by apply reachable_tool.
  - done.
Qed.

(** The router hands a request to a route of its table only. *)
Lemma route_request_Handled path_matches routes m path r :
  route_request path_matches routes m path = Handled r -> r ∈ routes.
Proof.
  unfold route_request.
  destruct (list_find _ routes) as [[i r']|] eqn:Hfind.
  - intros [= <-]. apply list_find_Some in Hfind as (Hi & _).
    by apply list_elem_of_lookup_2 in Hi.
  - repeat case_match; done.
Qed.

(** Whatever the request and however paths are matched, the application
    runs the [call_tool] of no tool. *)
Lemma no_call_tool_is_run path_matches d m path func model :
  deployed d ->
  endpoint_run (route_request path_matches (app d) m path)
    <> Some (call_tool_endpoint func model).
Proof.
  intros Hd Hrun.
  destruct (route_request path_matches (app d) m path) as [r| | |] eqn:Hr; try done.
  destruct r as [r|]; [|done]. simpl in Hrun.
  apply route_request_Handled in Hr.
  pose proof (deployed_mounts_no_tool d Hd) as Hall. rewrite Forall_forall in Hall.
  specialize (Hall _ Hr). simpl in Hall.
  injection Hrun as Hrun. by rewrite Hrun in Hall.
Qed.

Lemma fresh_deployment_constructed :
  construct FastAPI_routes "/mcp" = Returns fresh_deployment.
Proof. reflexivity. Qed.

Lemma sample_deployed n description func :
  deployed (deployment_with n description func).
Proof.
  apply deployed_register.
  apply (deployed_construct FastAPI_routes "/mcp");
    [by repeat constructor | apply fresh_deployment_constructed].
Qed.

End application_facts.

(* ===================================================================== *)
(** ** The discovery endpoint *)
(* ===================================================================== *)

Section discovery_facts.
Context (generator : BaseModel -> completion (odict value)).
Implicit Types (s : FastAPIMCPServer) (td : _ToolDefinition).

Lemma mapM_Raises {A B} (f : A -> completion B) before x after e :
  Forall (fun a => exists b, f a = Returns b) before ->
  f x = Raises e ->
  mapM f (before ++ x :: after) = Raises e.
Proof.
  intros Hbefore Hx. induction Hbefore as [|a before [b Ha] _ IH]; simpl.
  - by rewrite Hx.
  - rewrite Ha. simpl. by rewrite IH.
Qed.

Lemma mapM_Returns {A B} (f : A -> completion B) l :
  Forall (fun a => exists b, f a = Returns b) l ->
  exists k, mapM f l = Returns k /\ Forall2 (fun a b => f a = Returns b) l k.
Proof.
  induction 1 as [|a l [b Ha] _ (k & Hk & Hall)]; simpl.
  - exists []. split; [done | constructor].
  - exists (b :: k). rewrite Ha. simpl. rewrite Hk. simpl.
    split; [done | by constructor].
Qed.

Lemma mapM_Raises_elem {A B} (f : A -> completion B) l x e :
  x ∈ l -> f x = Raises e -> exists e', mapM f l = Raises e'.
Proof.
  intros Hx Hfx. induction l as [|a l IH]; [by apply elem_of_nil in Hx|].
  simpl. destruct (f a) as [b|e'] eqn:Ha; simpl; [|by eexists].
  apply elem_of_cons in Hx as [->|Hx]; [congruence|].
  destruct (IH Hx) as [e' He']. exists e'. by rewrite He'.
Qed.

Lemma listed_Raises s td e :
  generator (model td) = Raises e -> listed generator s td = Raises e.
Proof. intros Hg. unfold listed, schema. by rewrite Hg. Qed.

Lemma listed_Returns s td generated :
  generator (model td) = Returns generated ->
  listed generator s td =
    Returns (VDict [("name", VStr (name td));
                    ("description", VStr (description td));
                    ("input_schema",
                     VDict [("type", VStr "object");
                            ("properties",
                             dict_get_default generated "properties" (VDict []));
                            ("required",
                             dict_get_default generated "required" (VList []))]);
                    ("endpoint", VStr (_base_path s +:+ endpoint td))]).
Proof. intros Hg. unfold listed, schema. by rewrite Hg. Qed.

(** Discovery has no answer when the schema of one tool cannot be
    generated. *)
Lemma list_tools_Raises s n td e :
  dict_get (_tools s) n = Some td -> generator (model td) = Raises e ->
  exists e', list_tools generator s = Raises e'.
Proof.
  intros Hget Hg. unfold list_tools.
  destruct (mapM_Raises_elem (listed generator s) (dict_values (_tools s)) td e)
    as [e' He'].
  - apply list_elem_of_fmap. exists (n, td). split; [done|].
    by apply dict_get_Some_elem.
  - by apply listed_Raises.
  - exists e'. by rewrite He'.
Qed.

End discovery_facts.

(* ===================================================================== *)
(** ** Requests to the application *)
(* ===================================================================== *)

(** C1: what the code does with a request to a tool.  In every deployment
    and for every registered tool, the POST route of the tool is a route
    of the server's router, but the application holds no copy of it: the
    only endpoint of the server among the application's routes is
    [list_tools].  So, whatever the request and however the router
    matches paths, the [call_tool] of no tool is run: no payload is
    validated against the tool's model and no handler is dispatched. *)
Theorem C1_tool_routes_are_never_mounted d n td :
  deployed d -> dict_get (_tools (server d)) n = Some td ->
  tool_route td ∈ _router (server d) /\
  (forall r, Included r ∈ app d -> route_endpoint r = list_tools_endpoint) /\
  (forall path_matches m path func model,
     endpoint_run (route_request path_matches (app d) m path)
       <> Some (call_tool_endpoint func model)).
Proof.
  intros Hd Hget. split; [|split].
  - apply (registered_route _ n); [by apply deployed_reachable | done].
  - intros r Hr. pose proof (deployed_mounts_no_tool d Hd) as Hall.
    rewrite Forall_forall in Hall. specialize (Hall _ Hr). simpl in Hall.
    by destruct (route_endpoint r).
  - intros path_matches m path func model. by apply no_call_tool_is_run.
Qed.

(** C1 at [echo], registered on the server of a fresh application: the
    POST to its endpoint does not run it. *)
Lemma C1_witness :
  tool_route echo_definition ∈ _router (server echo_deployment) /\
  endpoint_run (route_request same_path (app echo_deployment) POST "/mcp/tools/echo")
    <> Some (call_tool_endpoint echo (model echo_definition)).
Proof.
  destruct (C1_tool_routes_are_never_mounted echo_deployment "echo" echo_definition)
    as (Hrouter & _ & Hrun).
  - apply sample_deployed.
  - reflexivity.
  - split; [exact Hrouter | apply Hrun].
Defined.

(* ===================================================================== *)
(** ** Duplicate names and variadic handlers *)
(* ===================================================================== *)

Lemma count_in_NoDup (l : list string) (x : string) :
  NoDup l -> x ∈ l -> List.length (filter (fun k => k = x) l) = 1%nat.
Proof.
  induction 1 as [|y l Hy Hnd IH]; intros Hx.
  - by apply elem_of_nil in Hx.
  - apply elem_of_cons in Hx as [->|Hx].
    + rewrite filter_cons_True by done. simpl. f_equal.
      rewrite filter_none; [done|].
      apply Forall_forall. intros z Hz ->. done.
    + rewrite filter_cons_False; [by apply IH|]. intros ->. done.
Qed.

(** C2: in every server a program can have, registering under a name that
    is present fails with the duplicate-name error and gives back the
    server as it was; the name still occurs once in the registry, with the
    definition it had. *)
Theorem C2_duplicate_registration_rejected s n d func td :
  reachable s -> dict_get (_tools s) n = Some td ->
  tool s n d func = (Raises (duplicate_error n), s) /\
  List.length (filter (fun k => k = n) (dict_keys (_tools (tool s n d func).2))) = 1%nat /\
  dict_get (_tools (tool s n d func).2) n = Some td /\
  name td = n /\ endpoint td = "/tools/" +:+ n.
Proof.
  intros Hr Hget.
  assert (n ∈ dict_keys (_tools s)) as Hin by (apply dict_get_is_Some; by eexists).
  rewrite (tool_duplicate s n d func Hin). simpl.
  split; [done|]. split.
  - apply count_in_NoDup; [|done]. by destruct (reachable_inv s Hr).
  - split; [done|]. by destruct (registered_entry s n td Hr Hget) as (? & ? & _).
Qed.

(** C2 at the server with [echo]: a second registration under ["echo"]
    fails and leaves the server as it was. *)
Lemma C2_witness :
  tool echo_server "echo" "Another echo" echo_positional_only
    = (Raises (duplicate_error "echo"), echo_server).
Proof.
  apply (C2_duplicate_registration_rejected echo_server "echo" "Another echo"
           echo_positional_only echo_definition).
  - apply sample_reachable.
  - reflexivity.
Defined.

(** C3, as stated, fails: a variadic handler registered under a name that
    is taken is refused with the duplicate-name error, not the var-args
    one. *)
Lemma C3_counterexample :
  ~ (forall s n d func,
       reachable s ->
       Exists (fun p => is_variadic p = true) (signature func) ->
       (tool s n d func).1 = Raises var_args_error).
Proof.
  intros Hclaim.
  specialize (Hclaim echo_server "echo" "Collect" collect (sample_reachable _ _ _)).
  rewrite tool_duplicate in Hclaim.
  - simpl in Hclaim. unfold var_args_error, duplicate_error in Hclaim.
    assert (Exists (fun p => is_variadic p = true) (signature collect)) as Hex
      by (left; reflexivity).
    specialize (Hclaim Hex). discriminate.
  - apply dict_get_is_Some. by exists echo_definition.
Qed.

(** C3 (amended): for a handler with a variadic parameter, schema
    derivation raises the var-args error; its registration always fails
    and gives back the server as it was, so no tool and no route is
    added; under a name that is not taken the error raised is the var-args
    one. *)
Theorem C3_variadic_rejected s n d func :
  Exists (fun p => is_variadic p = true) (signature func) ->
  _build_model_for_callable n func = Raises var_args_error /\
  (exists e, tool s n d func = (Raises e, s)) /\
  ((n ∉ dict_keys (_tools s)) -> tool s n d func = (Raises var_args_error, s)).
Proof.
  intros Hex. pose proof (build_model_variadic n func Hex) as Hb.
  split; [done|]. split.
  - destruct (decide (n ∈ dict_keys (_tools s))) as [Hin|Hin].
    + eexists. by apply tool_duplicate.
    + eexists. by apply tool_rejected.
  - intros Hin. by apply tool_rejected.
Qed.

(** C3 at [collect], on a fresh server. *)
Lemma C3_witness :
  tool (__init__ "/mcp") "collect" "Collect" collect
    = (Raises var_args_error, __init__ "/mcp").
Proof.
  apply (C3_variadic_rejected (__init__ "/mcp") "collect" "Collect" collect).
  - left. reflexivity.
  - apply not_elem_of_nil.
Defined.

(** C10: under a name that is taken, registration fails with the
    duplicate-name error and gives back the server as it was, whatever the
    handler; this holds also when deriving the handler's schema would have
    raised the (different) var-args error. *)
Theorem C10_duplicate_check_first s n d func :
  n ∈ dict_keys (_tools s) ->
  tool s n d func = (Raises (duplicate_error n), s) /\
  (Exists (fun p => is_variadic p = true) (signature func) ->
   _build_model_for_callable n func = Raises var_args_error /\
   duplicate_error n <> var_args_error).
Proof.
  intros Hin. split; [by apply tool_duplicate|].
  intros Hex. split; [by apply build_model_variadic | done].
Qed.

(** C10 at the server with [echo] and the variadic [collect]. *)
Lemma C10_witness :
  tool echo_server "echo" "Collect" collect
    = (Raises (duplicate_error "echo"), echo_server) /\
  _build_model_for_callable "echo" collect = Raises var_args_error.
Proof.
  destruct (C10_duplicate_check_first echo_server "echo" "Collect" collect) as [Ht Hb].
  - apply dict_get_is_Some. by exists echo_definition.
  - split; [exact Ht|]. apply Hb. left. reflexivity.
Defined.

(* ===================================================================== *)
(** ** What [call_tool] gives the handler *)
(* ===================================================================== *)

(** C4, as stated, fails: the payload [{"top": "5"}] passes validation
    against the model of [lookup], and the keyword given to the handler
    for [top] is the integer 5, not the string of the payload. *)
Lemma C4_counterexample :
  ~ (forall (m : BaseModel) (body : payload) inst k v,
       NoDup (dict_keys (model_fields m)) ->
       model_validate m body = inr inst ->
       k ∈ dict_keys (model_fields m) -> body !! k = Some v ->
       dict_get (model_dump_exclude_unset inst) k = Some v).
Proof.
  intros Hclaim.
  specialize (Hclaim lookup_model {[ "top" := VStr "5" ]}
                {| field_values := [("top", VInt 5); ("select", VNone)];
                   model_fields_set := ["top"] |}
                "top" (VStr "5")).
  assert (NoDup (dict_keys (model_fields lookup_model))) as Hnd by distinct.
  assert (dict_get (model_dump_exclude_unset
            {| field_values := [("top", VInt 5); ("select", VNone)];
               model_fields_set := ["top"] |}) "top" = Some (VStr "5")) as Hget.
  { apply Hclaim; [done | reflexivity | | reflexivity].
    apply dict_get_is_Some. by eexists. }
  vm_compute in Hget. discriminate.
Qed.

(** C4 (amended): for a payload that passes validation against the model
    of a tool, the keywords [call_tool] calls the handler with are the
    fields the payload gives, each with its validated value, and no other:
    a field the payload omits is not among them, and a value that already
    has the declared type (an explicit null of an optional field too) is
    given as it is.  When the call binds, the handler's code runs on the
    bound arguments, and a parameter the payload omits has the handler's
    own default. *)
Theorem C4_set_fields_are_passed (m : BaseModel) (func : ToolCallable)
    (body : payload) (inst : instance) :
  NoDup (dict_keys (model_fields m)) ->
  model_validate m body = inr inst ->
  call_tool func inst
    = except_TypeError (awaited (call func (model_dump_exclude_unset inst))) /\
  (forall k, dict_get (model_dump_exclude_unset inst) k = passed_value m body k) /\
  (forall k, body !! k = None -> dict_get (model_dump_exclude_unset inst) k = None) /\
  (forall k f v,
     dict_get (model_fields m) k = Some f -> body !! k = Some v ->
     has_type f.1 v = true ->
     dict_get (model_dump_exclude_unset inst) k = Some v) /\
  (forall locals,
     bind (qualname func) (signature func) (model_dump_exclude_unset inst)
       = Returns locals ->
     call_tool func inst = except_TypeError (awaited (code func locals)) /\
     (forall p, p ∈ signature func -> is_variadic p = false ->
        body !! p_name p = None -> dict_get locals (p_name p) = p_default p)).
Proof.
  intros Hnd Hv.
  assert (forall k, dict_get (model_dump_exclude_unset inst) k = passed_value m body k)
    as Hdump by (intros k; by apply dump_lookup).
  assert (forall k, body !! k = None -> dict_get (model_dump_exclude_unset inst) k = None)
    as Habsent.
  { intros k Hk. rewrite Hdump. unfold passed_value. rewrite Hk.
    by destruct (dict_get (model_fields m) k). }
  split; [done|]. split; [done|]. split; [done|]. split.
  - intros k f v Hf Hk Hty. rewrite Hdump. unfold passed_value.
    by rewrite Hf, Hk, (has_type_validate _ _ Hty).
  - intros locals Hb. split.
    + unfold call_tool, call. by rewrite Hb.
    + intros p Hp Hvar Hk.
      rewrite (bind_lookup _ _ _ _ p (names_distinct func) Hp Hb).
      unfold local_of. rewrite (Habsent _ Hk).
      unfold is_variadic in Hvar. apply bool_decide_eq_false_1 in Hvar.
      destruct (p_kind p); try done; exfalso; apply Hvar; auto.
Qed.

(** C4 at [lookup] and the payload [{"select": null}]: the handler is
    called with [select=None] only, and [top] has its default. *)
Lemma C4_witness :
  call_tool lookup
    {| field_values := [("top", VInt 50); ("select", VNone)];
       model_fields_set := ["select"] |}
    = Returns (VDict [("top", VInt 50); ("select", VNone)]) /\
  dict_get (model_dump_exclude_unset
              {| field_values := [("top", VInt 50); ("select", VNone)];
                 model_fields_set := ["select"] |}) "top" = None.
Proof.
  destruct (C4_set_fields_are_passed lookup_model lookup {[ "select" := VNone ]}
              {| field_values := [("top", VInt 50); ("select", VNone)];
                 model_fields_set := ["select"] |})
    as (Hcall & _ & Habsent & _).
  - distinct.
  - reflexivity.
  - split; [rewrite Hcall; reflexivity | by apply Habsent].
Defined.

(* ===================================================================== *)
(** ** Requests to the sample tools *)
(* ===================================================================== *)




(* ===================================================================== *)
(** ** Discovery *)
(* ===================================================================== *)

(** C8: what the code does when the schema of a tool cannot be generated.
    [list_tools] raises the exception of the first tool, in the order of
    the registry, whose model the generator raises on: discovery then has
    no entry for any tool. *)
Theorem C8_discovery_fails_with_a_schema
    (generator : BaseModel -> completion (odict value)) s before n td after e :
  _tools s = before ++ (n, td) :: after ->
  Forall (fun entry : string * _ToolDefinition =>
            exists generated, generator (model entry.2) = Returns generated) before ->
  generator (model td) = Raises e ->
  list_tools generator s = Raises e.
Proof.
  intros Htools Hbefore Hg. unfold list_tools, dict_values.
  rewrite Htools, fmap_app, fmap_cons. simpl.
  rewrite (mapM_Raises (listed generator s) _ td _ e); [done| |by apply listed_Raises].
  apply Forall_fmap. eapply Forall_impl; [exact Hbefore|].
  intros entry [generated Hgen]. simpl. eexists. by apply listed_Returns.
Qed.

(** C8 at the server with [echo] and a generator that raises. *)
Lemma C8_witness :
  list_tools failing_generator echo_server
    = Raises (OtherError "PydanticUserError" "the model is not fully defined").
Proof.
  apply (C8_discovery_fails_with_a_schema failing_generator echo_server
           [] "echo" echo_definition []).
  - reflexivity.
  - constructor.
  - reflexivity.
Defined.

(** C9: the code at the tool of [src/app.py].  In every deployment where
    a tool is registered under the name [list_purchase_requisitions],
    discovery raises when the generator raises on the model of that tool,
    so no schema of it is published; and no request runs its [call_tool],
    however the router matches paths, so no payload reaches the handler. *)
Theorem C9_requisitions_tool_is_not_served
    (generator : BaseModel -> completion (odict value)) d td e :
  deployed d ->
  dict_get (_tools (server d)) "list_purchase_requisitions" = Some td ->
  generator (model td) = Raises e ->
  (exists e', list_tools generator (server d) = Raises e') /\
  (forall path_matches m path,
     endpoint_run (route_request path_matches (app d) m path)
       <> Some (call_tool_endpoint (handler td) (model td))).
Proof.
  intros Hd Hget Hg. split.
  - by apply (list_tools_Raises generator _ "list_purchase_requisitions" td e).
  - intros path_matches m path. by apply no_call_tool_is_run.
Qed.

(** C9 at a deployment like that of [src/app.py]: one tool under the name
    [list_purchase_requisitions], then the route of [root]; the generator
    raises. *)
Lemma C9_witness :
  (exists e',
     list_tools failing_generator
       (server (add_route (deployment_with "list_purchase_requisitions" "Lookup" lookup)
                  GET "/")) = Raises e') /\
  endpoint_run
    (route_request same_path
       (app (add_route (deployment_with "list_purchase_requisitions" "Lookup" lookup)
               GET "/"))
       POST "/mcp/tools/list_purchase_requisitions")
    <> Some (call_tool_endpoint lookup
               (create_model "ListPurchaseRequisitionsToolInput"
                  [("top", (Int, VInt 50)); ("select", (Optional Str, VNone))])).
Proof.
  destruct (C9_requisitions_tool_is_not_served failing_generator
              (add_route (deployment_with "list_purchase_requisitions" "Lookup" lookup)
                 GET "/")
              {| name := "list_purchase_requisitions"; description := "Lookup";
                 endpoint := "/tools/list_purchase_requisitions";
                 handler := lookup;
                 model := create_model "ListPurchaseRequisitionsToolInput"
                            [("top", (Int, VInt 50)); ("select", (Optional Str, VNone))] |}
              (OtherError "PydanticUserError" "the model is not fully defined"))
    as [Hlist Hrun].
  - apply deployed_add_route, sample_deployed.
  - reflexivity.
  - reflexivity.
  - split; [exact Hlist | apply Hrun].
Defined.

(* ===================================================================== *)
(** ** The prefix of a server *)
(* ===================================================================== *)

Lemma append_slash_nonempty r : r +:+ "/" <> "".
Proof. by destruct r. Qed.

Lemma rstrip_slash_decompose s : exists k, s = rstrip_slash s +:+ slashes k.
Proof.
  induction s as [|c s [k IH]]; [by exists 0%nat|]. simpl.
  destruct (rstrip_slash s) as [|a t] eqn:Hs.
  - simpl in IH. case_decide as Hc.
    + subst c. exists (S k). simpl. by rewrite IH.
    + exists k. simpl. by rewrite IH.
  - exists k. simpl. by rewrite IH at 1.
Qed.

Lemma rstrip_slash_no_trailing s r : rstrip_slash s <> r +:+ "/".
Proof.
  revert r. induction s as [|c s IH]; intros r; simpl.
  - intros Heq. by apply (append_slash_nonempty r).
  - destruct (rstrip_slash s) as [|a t] eqn:Hs.
    + case_decide as Hc.
      * intros Heq. by apply (append_slash_nonempty r).
      * destruct r as [|c' r]; simpl; [intros [= ?]; by subst|].
        intros [= _ Heq]. by apply (append_slash_nonempty r).
    + destruct r as [|c' r]; simpl; [done|].
      intros [= _ Heq]. by apply (IH r).
Qed.

Lemma rstrip_slash_fixed s : (forall r, s <> r +:+ "/") -> rstrip_slash s = s.
Proof.
  induction s as [|c s IH]; [done|]. intros Hno. simpl.
  destruct s as [|c' s].
  - simpl. case_decide as Hc; [|done]. subst c. by destruct (Hno "").
  - rewrite IH; [done|]. intros r Heq. apply (Hno (String c r)).
    change (String c (String c' s) = String c (r +:+ "/")). by rewrite Heq.
Qed.

(** X1: The prefix a server keeps is the given base path without its trailing
    slashes: the base path is the prefix followed by slashes only, the
    prefix does not end in a slash, and a server made with that prefix
    keeps it as it is. *)
Theorem init_base_path_stripped base_path :
  (exists k, base_path = _base_path (__init__ base_path) +:+ slashes k) /\
  (forall r, _base_path (__init__ base_path) <> r +:+ "/") /\
  _base_path (__init__ (_base_path (__init__ base_path)))
    = _base_path (__init__ base_path).
Proof.
  split; [apply rstrip_slash_decompose|].
  split; [apply rstrip_slash_no_trailing|].
  apply rstrip_slash_fixed, rstrip_slash_no_trailing.
Qed.

(* ===================================================================== *)
(** ** What a registration does *)
(* ===================================================================== *)

(** X3: Whatever its outcome, a registration keeps the prefix and only appends:
    the registry and the router of before are prefixes of those after, by
    at most one definition and as many routes. *)
Theorem tool_only_appends s n d func :
  exists tds routes,
    _tools (tool s n d func).2 = _tools s ++ tds /\
    _router (tool s n d func).2 = _router s ++ routes /\
    (List.length tds <= 1)%nat /\ List.length routes = List.length tds /\
    _base_path (tool s n d func).2 = _base_path s.
Proof.
  destruct (tool_cases s n d func) as [[_ ->]|[(_ & _ & ->)|(m & _ & _ & ->)]].
  - exists [], []. simpl. rewrite !app_nil_r. repeat split; lia.
  - exists [], []. simpl. rewrite !app_nil_r. repeat split; lia.
  - eexists [_], [_]. simpl. repeat split; lia.
Qed.

(** X4: In every server a program can have: the names of the registry are
    distinct, every definition is stored under its own name with the
    endpoint ["/tools/" + name], and the router holds the discovery route
    followed by one POST route per definition, in the order of the
    registry. *)
Theorem registry_and_router_agree s :
  reachable s ->
  NoDup (name <$> dict_values (_tools s)) /\
  Forall (fun e : string * _ToolDefinition =>
            name e.2 = e.1 /\ endpoint e.2 = "/tools/" +:+ e.1) (_tools s) /\
  _router s =
    {| route_method := GET; route_path := "/tools"; route_endpoint := list_tools_endpoint |}
    :: ((fun td => {| route_method := POST; route_path := endpoint td;
                      route_endpoint := call_tool_endpoint (handler td) (model td) |})
        <$> dict_values (_tools s)).
Proof.
  intros Hr. destruct (reachable_inv s Hr) as [Hk Hrt He].
  assert (Forall (fun e : string * _ToolDefinition =>
            name e.2 = e.1 /\ endpoint e.2 = "/tools/" +:+ e.1) (_tools s)) as He'.
  { eapply Forall_impl; [exact He|]. by intros e (? & ? & _). }
  split; [|split; [done|exact Hrt]].
  replace (name <$> dict_values (_tools s)) with (dict_keys (_tools s)); [done|].
  unfold dict_keys, dict_values. clear Hk Hrt He.
  induction He' as [|e l [Hn _] _ IH]; [done|]. csimpl. by rewrite Hn, IH.
Qed.

(** At the server with [echo]. *)
Lemma registry_and_router_agree_witness :
  NoDup (name <$> dict_values (_tools echo_server)).
Proof.
  apply (registry_and_router_agree echo_server). apply sample_reachable.
Defined.

(* ===================================================================== *)
(** ** The derived model and the call of the handler *)
(* ===================================================================== *)

Lemma build_fields_without_ellipsis annotations ps acc :
  build_fields annotations (without_ellipsis <$> ps) acc
    = build_fields annotations ps acc.
Proof.
  revert acc. induction ps as [|p ps IH]; intros acc; [done|]. csimpl.
  assert (is_variadic (without_ellipsis p) = is_variadic p) as -> by done.
  destruct (is_variadic p); [done|]. rewrite IH. do 2 f_equal.
  destruct (p_default p) as [d|]; [|done]. by destruct d.
Qed.

(** X9: A parameter whose default is the object [...] is registered as a
    parameter without default is: the model derived for a handler is the
    one derived for the same handler with those defaults taken away, so
    such a default is never what the field falls back to. *)
Theorem ellipsis_default_is_no_default n func func' :
  signature func' = without_ellipsis <$> signature func ->
  get_annotations func' = get_annotations func ->
  _build_model_for_callable n func' = _build_model_for_callable n func.
Proof.
  intros Hsig Hann. unfold _build_model_for_callable.
  by rewrite Hsig, Hann, build_fields_without_ellipsis.
Qed.

(** [def keep(x=...)] and [def keep(x)]. *)
Lemma ellipsis_default_is_no_default_witness :
  _build_model_for_callable "keep" keep_without_default
    = _build_model_for_callable "keep" keep.
Proof.
  apply (ellipsis_default_is_no_default "keep" keep keep_without_default); reflexivity.
Defined.

Lemma unique_parameter (sig : list parameter) p q :
  NoDup (p_name <$> sig) -> p ∈ sig -> q ∈ sig -> p_name p = p_name q -> p = q.
Proof.
  induction sig as [|a sig IH]; csimpl.
  - intros _ Hp. by apply elem_of_nil in Hp.
  - rewrite NoDup_cons, !elem_of_cons. intros [Ha Hnd] [->|Hp] [->|Hq] Heq.
    + done.
    + exfalso. apply Ha. rewrite Heq. apply list_elem_of_fmap. by exists q.
    + exfalso. apply Ha. rewrite <- Heq. apply list_elem_of_fmap. by exists p.
    + by apply IH.
Qed.

Lemma unmatched_positional_only sig kwargs p :
  NoDup (p_name <$> sig) -> p ∈ sig -> p_kind p = POSITIONAL_ONLY ->
  p_name p ∈ dict_keys kwargs ->
  unmatched_keywords sig kwargs <> [].
Proof.
  intros Hnd Hp Hkind Hk Hnil.
  apply list_elem_of_fmap in Hk as ([k v] & Hname & Hkv). simpl in Hname. subst k.
  assert ((p_name p, v) ∈ unmatched_keywords sig kwargs) as Hin.
  { apply list_elem_of_filter. split; [|done]. simpl.
    unfold keyword_names. intros Hkw.
    apply list_elem_of_fmap in Hkw as (q & Hname & Hq).
    apply list_elem_of_filter in Hq as [Hacc Hq].
    rewrite <- (unique_parameter sig p q Hnd Hp Hq Hname) in Hacc.
    unfold accepts_keyword in Hacc. apply bool_decide_eq_true_1 in Hacc.
    rewrite Hkind in Hacc. by destruct Hacc. }
  rewrite Hnil in Hin. by apply elem_of_nil in Hin.
Qed.

(** X11: When the keywords [call_tool] has for the handler name a
    positional-only parameter of a handler, the call fails at binding and
    [call_tool] raises [HTTPException] with status 400, whatever the
    handler's code would do. *)
Theorem positional_only_keyword_is_400 func inst p :
  p ∈ signature func -> p_kind p = POSITIONAL_ONLY ->
  has_var_keyword (signature func) = false ->
  p_name p ∈ dict_keys (model_dump_exclude_unset inst) ->
  exists msg,
    call func (model_dump_exclude_unset inst) = Raises (TypeError msg) /\
    call_tool func inst = Raises (HTTPException 400 (VStr msg)).
Proof.
  intros Hp Hkind Hvar Hk.
  pose proof (unmatched_positional_only _ _ p (names_distinct func) Hp Hkind Hk) as Hne.
  assert (exists msg, bind (qualname func) (signature func)
                        (model_dump_exclude_unset inst) = Raises (TypeError msg))
    as [msg Hb].
  { unfold bind. rewrite Hvar.
    destruct (unmatched_keywords _ _) as [|[k v] rest]; [done|].
    destruct (filter _ (positional_only_names _)); by eexists. }
  exists msg. unfold call_tool, call. by rewrite Hb.
Qed.

(** The positional-only [echo], called with the keyword [x]. *)
Lemma positional_only_keyword_is_400_witness :
  exists msg,
    call_tool echo_positional_only
      {| field_values := [("x", VStr "hi")]; model_fields_set := ["x"] |}
      = Raises (HTTPException 400 (VStr msg)).
Proof.
  destruct (positional_only_keyword_is_400 echo_positional_only
              {| field_values := [("x", VStr "hi")]; model_fields_set := ["x"] |}
              {| p_name := "x"; p_kind := POSITIONAL_ONLY; p_default := None |})
    as (msg & _ & Hcall).
  - apply list_elem_of_singleton. reflexivity.
  - reflexivity.
  - reflexivity.
  - vm_compute. apply list_elem_of_singleton. reflexivity.
  - by exists msg.
Defined.

(** X12: When the call binds, what the handler's code does is what
    [call_tool] does, a [TypeError] apart: a returned value is returned,
    an awaitable is awaited and its outcome is the outcome, and an
    exception that is no [TypeError] (an [HTTPException] with its status
    and detail among them) comes out unchanged. *)
Theorem handler_outcome_is_passed_on func inst locals :
  bind (qualname func) (signature func) (model_dump_exclude_unset inst)
    = Returns locals ->
  (forall v, code func locals = Returns (Plain v) -> call_tool func inst = Returns v) /\
  (forall c, code func locals = Returns (Awaitable c) ->
     (forall msg, c <> Raises (TypeError msg)) -> call_tool func inst = c) /\
  (forall e, code func locals = Raises e ->
     (forall msg, e <> TypeError msg) -> call_tool func inst = Raises e).
Proof.
  intros Hb. unfold call_tool, call. rewrite Hb. simpl.
  split; [|split].
  - by intros v ->.
  - intros c -> Hc. simpl. destruct c as [v|[]]; try done. by destruct (Hc msg).
  - intros e -> He. simpl. destruct e; try done. by destruct (He msg).
Qed.

(** [probe], whose coroutine raises [HTTPException(503, ...)]. *)
Lemma handler_outcome_is_passed_on_witness :
  call_tool probe {| field_values := []; model_fields_set := [] |}
    = Raises (HTTPException 503 (VStr "upstream unavailable")).
Proof.
  destruct (handler_outcome_is_passed_on probe
              {| field_values := []; model_fields_set := [] |} [])
    as (_ & Hawait & _).
  - reflexivity.
  - apply (Hawait (Raises (HTTPException 503 (VStr "upstream unavailable")))).
    + reflexivity.
    + discriminate.
Defined.

(** X13: [call_tool] never raises a [TypeError]: one raised by the binding
    of the call, by the handler's code or by the awaited coroutine comes
    out as [HTTPException] with status 400 and the message of the error as
    its detail. *)
Theorem call_tool_never_raises_TypeError func inst :
  (forall msg, call_tool func inst <> Raises (TypeError msg)) /\
  (forall msg,
     awaited (call func (model_dump_exclude_unset inst)) = Raises (TypeError msg) ->
     call_tool func inst = Raises (HTTPException 400 (VStr msg))).
Proof.
  unfold call_tool. split.
  - intros msg. by destruct (awaited _) as [v|[]].
  - by intros msg ->.
Qed.

(** X24: In every server a program can have, when the generator gives a
    schema for the model of every registered tool, discovery returns a
    dictionary whose only key [tools] holds one entry per tool, in the
    order of the registry; an entry has the keys [name], [description],
    [input_schema] and [endpoint], its endpoint is the prefix followed by
    ["/tools/"] and the name, and its [input_schema] has the keys [type]
    (with ["object"]), [properties] and [required] and no other, the last
    two as the generator gave them, or empty when it gave none. *)
Theorem discovery_lists_every_tool
    (generator : BaseModel -> completion (odict value)) s :
  reachable s ->
  Forall (fun e : string * _ToolDefinition =>
            exists generated, generator (model e.2) = Returns generated) (_tools s) ->
  exists entries,
    list_tools generator s = Returns (VDict [("tools", VList entries)]) /\
    Forall2 (fun (e : string * _ToolDefinition) entry =>
               exists generated,
                 generator (model e.2) = Returns generated /\
                 entry = discovery_entry (_base_path s) e generated)
            (_tools s) entries.
Proof.
  intros Hr Hall. destruct (reachable_inv s Hr) as [_ _ He].
  destruct (mapM_Returns (listed generator s) (dict_values (_tools s)))
    as (entries & Hmap & Hentries).
  { apply Forall_fmap. eapply Forall_impl; [exact Hall|].
    intros e [generated Hg]. simpl. eexists. by apply listed_Returns. }
  exists entries. split.
  - unfold list_tools. by rewrite Hmap.
  - unfold dict_values in Hentries. apply Forall2_fmap_l in Hentries.
    clear Hmap. induction Hentries as [|e entry l k Hentry _ IH]; [constructor|].
    apply Forall_cons in Hall as [[generated Hg] Hall].
    apply Forall_cons in He as [(Hname & Hend & _) He].
    constructor; [|by apply IH].
    exists generated. split; [done|].
    simpl in Hentry. rewrite (listed_Returns generator s _ generated Hg) in Hentry.
    injection Hentry as <-. unfold discovery_entry. by rewrite Hname, Hend.
Qed.

(** The server with [echo], and a generator that gives an empty schema. *)
Lemma discovery_lists_every_tool_witness :
  exists entries,
    list_tools (constant_generator []) echo_server
      = Returns (VDict [("tools", VList entries)]) /\
    List.length entries = 1%nat.
Proof.
  destruct (discovery_lists_every_tool (constant_generator []) echo_server)
    as (entries & Hlist & Hentries).
  - apply sample_reachable.
  - repeat constructor. by eexists.
  - exists entries. split; [exact Hlist|].
    by rewrite <- (Forall2_length _ _ _ Hentries).
Defined.

(* ===================================================================== *)
(** ** The coroutine of the purchase-requisition tool *)
(* ===================================================================== *)

Section requisitions.
Context (getenv : string -> option string)
        (client_get : string -> odict value -> odict value -> App.upstream)
        (json_dumps : value -> string).

Lemma in_range z : 1 <= z <= 200 -> (z <=? 0) || (200 <? z) = false.
Proof. intros Hz. apply orb_false_iff. lia. Qed.

(** X14: Called with a [top] outside 1..200, the coroutine raises
    [HTTPException] with status 400 and the sandbox message, whatever the
    environment: neither the key nor the remote API is consulted. *)
Theorem top_out_of_bounds_is_400 z select filter :
  z <= 0 \/ 200 < z ->
  App.list_purchase_requisitions_coroutine getenv client_get json_dumps
    (VInt z) select filter
    = Raises (HTTPException 400
        (VStr "Parameter 'top' must be between 1 and 200 for sandbox usage.")).
Proof.
  intros Hz. unfold App.list_purchase_requisitions_coroutine, App.as_number.
  assert ((z <=? 0) || (200 <? z) = true) as -> by (apply orb_true_iff; lia). done.
Qed.

(** X15: Called with [top] in 1..200 when the key is unset or empty, the
    coroutine raises [HTTPException] with status 500 and the
    configuration message, whatever the remote API would say. *)
Theorem missing_api_key_is_500 z select filter :
  1 <= z <= 200 ->
  getenv App.API_KEY_ENV_VAR = None \/ getenv App.API_KEY_ENV_VAR = Some "" ->
  App.list_purchase_requisitions_coroutine getenv client_get json_dumps
    (VInt z) select filter
    = Raises (HTTPException 500
        (VStr ("The SAP API key is not configured. Set the environment variable "
               +:+ "SAP_API_KEY before calling this tool."))).
Proof.
  intros Hz Hkey. unfold App.list_purchase_requisitions_coroutine, App.as_number, App._get_api_key.
  rewrite (in_range z Hz). by destruct Hkey as [-> | ->].
Qed.

(** X16: Called with [top] in 1..200 and a key, when the remote API answers
    with an error status the coroutine raises an [HTTPException] with
    that very status and the remote text after
    ["SAP API request failed: "]. *)
Theorem upstream_status_is_passed_on z select filter key status text :
  1 <= z <= 200 -> getenv App.API_KEY_ENV_VAR = Some key -> key <> "" ->
  (forall headers params,
     client_get App.SAP_PURCHASE_REQUISITION_URL headers params
       = App.StatusError status text) ->
  App.list_purchase_requisitions_coroutine getenv client_get json_dumps
    (VInt z) select filter
    = Raises (HTTPException status (VStr ("SAP API request failed: " +:+ text))).
Proof.
  intros Hz Hkey Hne Hup. unfold App.list_purchase_requisitions_coroutine, App.as_number, App._get_api_key.
  rewrite (in_range z Hz), Hkey. destruct key as [|c key]; [done|]. simpl.
  unfold App._call_sap_api. by rewrite Hup.
Qed.

(** X17: Called with [top] in 1..200 and a key, when the remote body is not
    JSON the coroutine raises [HTTPException] with status 502. *)
Theorem upstream_invalid_json_is_502 z select filter key :
  1 <= z <= 200 -> getenv App.API_KEY_ENV_VAR = Some key -> key <> "" ->
  (forall headers params,
     client_get App.SAP_PURCHASE_REQUISITION_URL headers params = App.InvalidJSON) ->
  App.list_purchase_requisitions_coroutine getenv client_get json_dumps
    (VInt z) select filter
    = Raises (HTTPException 502 (VStr "SAP API returned invalid JSON")).
Proof.
  intros Hz Hkey Hne Hup. unfold App.list_purchase_requisitions_coroutine, App.as_number, App._get_api_key.
  rewrite (in_range z Hz), Hkey. destruct key as [|c key]; [done|]. simpl.
  unfold App._call_sap_api. by rewrite Hup.
Qed.

(** X18: Called with [top] in 1..200 and a key, the coroutine returns the
    data the remote API gives as one text item in a [content] list,
    serialised by [json.dumps]. *)
Theorem upstream_data_is_wrapped z select filter key data :
  1 <= z <= 200 -> getenv App.API_KEY_ENV_VAR = Some key -> key <> "" ->
  (forall headers params,
     client_get App.SAP_PURCHASE_REQUISITION_URL headers params = App.Decoded data) ->
  App.list_purchase_requisitions_coroutine getenv client_get json_dumps
    (VInt z) select filter
    = Returns (VDict [("content",
        VList [VDict [("type", VStr "text"); ("text", VStr (json_dumps data))]])]).
Proof.
  intros Hz Hkey Hne Hup. unfold App.list_purchase_requisitions_coroutine, App.as_number, App._get_api_key.
  rewrite (in_range z Hz), Hkey. destruct key as [|c key]; [done|]. simpl.
  unfold App._call_sap_api. by rewrite Hup.
Qed.



End requisitions.

(** [top = 0], with no key and a remote API that is down. *)
Lemma top_out_of_bounds_is_400_witness :
  App.list_purchase_requisitions_coroutine (fun _ => None) unavailable_client sample_dumps
    (VInt 0) VNone VNone
    = Raises (HTTPException 400
        (VStr "Parameter 'top' must be between 1 and 200 for sandbox usage.")).
Proof.
  apply (top_out_of_bounds_is_400 (fun _ => None) unavailable_client sample_dumps
           0 VNone VNone).
  lia.
Defined.

(** [top = 50] with no key. *)
Lemma missing_api_key_is_500_witness :
  App.list_purchase_requisitions_coroutine (fun _ => None) unavailable_client sample_dumps
    (VInt 50) VNone VNone
    = Raises (HTTPException 500
        (VStr ("The SAP API key is not configured. Set the environment variable "
               +:+ "SAP_API_KEY before calling this tool."))).
Proof.
  apply (missing_api_key_is_500 (fun _ => None) unavailable_client sample_dumps
           50 VNone VNone).
  - lia.
  - by left.
Defined.

(** [top = 1] when the remote API answers 503. *)
Lemma upstream_status_is_passed_on_witness :
  App.list_purchase_requisitions_coroutine sample_getenv unavailable_client sample_dumps
    (VInt 1) VNone VNone
    = Raises (HTTPException 503 (VStr "SAP API request failed: upstream unavailable")).
Proof.
  apply (upstream_status_is_passed_on sample_getenv unavailable_client sample_dumps
           1 VNone VNone "secret" 503 "upstream unavailable").
  - lia.
  - reflexivity.
  - done.
  - reflexivity.
Defined.

(** [top = 200] when the remote body is not JSON. *)
Lemma upstream_invalid_json_is_502_witness :
  App.list_purchase_requisitions_coroutine sample_getenv (fun _ _ _ => App.InvalidJSON)
    sample_dumps (VInt 200) VNone VNone
    = Raises (HTTPException 502 (VStr "SAP API returned invalid JSON")).
Proof.
  apply (upstream_invalid_json_is_502 sample_getenv (fun _ _ _ => App.InvalidJSON)
           sample_dumps 200 VNone VNone "secret").
  - lia.
  - reflexivity.
  - done.
  - reflexivity.
Defined.

(** [top = 5] when the remote API gives an empty list. *)
Lemma upstream_data_is_wrapped_witness :
  App.list_purchase_requisitions_coroutine sample_getenv (steady_client (VList []))
    sample_dumps (VInt 5) VNone VNone
    = Returns (VDict [("content",
        VList [VDict [("type", VStr "text"); ("text", VStr "{}")]])]).
Proof.
  apply (upstream_data_is_wrapped sample_getenv (steady_client (VList []))
           sample_dumps 5 VNone VNone "secret" (VList [])).
  - lia.
  - reflexivity.
  - done.
  - reflexivity.
Defined.


(* ===================================================================== *)
(** ** The example client *)
(* ===================================================================== *)

Lemma endswith_slash_append r : Client.endswith_slash (r +:+ "/") = true.
Proof.
  induction r as [|c r IH]; [done|]. simpl.
  destruct (r +:+ "/") eqn:Hr; [by apply append_slash_nonempty in Hr | done].
Qed.

Lemma without_last_append r : Client.without_last (r +:+ "/") = r.
Proof.
  induction r as [|c r IH]; [done|]. simpl.
  destruct (r +:+ "/") eqn:Hr; [by apply append_slash_nonempty in Hr|].
  by rewrite IH.
Qed.

Lemma endswith_slash_true url :
  Client.endswith_slash url = true -> exists r, url = r +:+ "/".
Proof.
  induction url as [|c url IH]; [done|]. simpl.
  destruct url as [|c' url].
  - intros Hc. apply bool_decide_eq_true_1 in Hc as ->. by exists "".
  - intros Hend. destruct (IH Hend) as [r ->]. by exists (String c r).
Qed.

(** X20: [_normalise_base_url] removes one trailing slash and no more: a URL
    that ends in a slash loses that slash, any other URL is unchanged; so
    a URL that ends in two slashes still ends in one. *)
Theorem normalise_base_url_drops_one_slash :
  (forall r, Client._normalise_base_url (r +:+ "/") = r) /\
  (forall url, (forall r, url <> r +:+ "/") -> Client._normalise_base_url url = url) /\
  (forall r, Client._normalise_base_url (r +:+ "//") = r +:+ "/").
Proof.
  assert (forall r, Client._normalise_base_url (r +:+ "/") = r) as Hone.
  { intros r. unfold Client._normalise_base_url.
    by rewrite endswith_slash_append, without_last_append. }
  split; [done|]. split.
  - intros url Hno. unfold Client._normalise_base_url.
    destruct (Client.endswith_slash url) eqn:Hend; [|done].
    destruct (endswith_slash_true url Hend) as [r ->]. by destruct (Hno r).
  - intros r. replace (r +:+ "//") with ((r +:+ "/") +:+ "/"); [apply Hone|].
    induction r as [|c r IH]; [done|].
    change (String c ((r +:+ "/") +:+ "/") = String c (r +:+ "//")). by rewrite IH.
Qed.

(** X21: The script sends at most three requests, in a fixed order: the health
    check, the discovery, the call of the tool with [{"top": top}], all
    under the normalised base URL.  It stops at the first request that
    fails: a second request is sent only after the health check decoded,
    and the tool is called only after discovery gave a dictionary whose
    ["tools"] is a non-empty value. *)
Theorem main_sends_planned_requests (client : Client.AsyncClient) base_url top :
  (Client.main client base_url top []).1 `prefix_of` planned_requests base_url top /\
  ((2 <= List.length (Client.main client base_url top []).1)%nat ->
   exists health,
     client (Client.Get (Client._normalise_base_url base_url +:+ "/"))
       = App.Decoded health) /\
  (forall url json,
     Client.Post url json ∈ (Client.main client base_url top []).1 ->
     exists d,
       client (Client.Get (Client._normalise_base_url base_url +:+ "/mcp/tools"))
         = App.Decoded (VDict d) /\
       App.truthy (dict_get_default d "tools" VNone) = true).
Proof.
  unfold Client.main, planned_requests, Client.session_bind, Client._get_json,
    Client._post_json, Client.session_ret.
  set (base := Client._normalise_base_url base_url). simpl.
  assert (forall (l : list Client.request) url json,
            Client.Post url json ∈ l ->
            Forall (fun r => match r with Client.Get _ => True | _ => False end) l ->
            False) as Hnopost.
  { intros l url json Hin Hall. rewrite Forall_forall in Hall. by apply (Hall _ Hin). }
  destruct (client (Client.Get (base +:+ "/"))) as [st tx| |health|e]; simpl.
  1,2,4: split; [by eexists [_; _] | split; [lia|]];
         intros url json Hin; exfalso; apply (Hnopost _ _ _ Hin); by repeat constructor.
  destruct (client (Client.Get (base +:+ "/mcp/tools"))) as [st tx| |tp|e]; simpl.
  1,2,4: split; [by eexists [_] | split; [by eexists|]];
         intros url json Hin; exfalso; apply (Hnopost _ _ _ Hin); by repeat constructor.
  destruct tp as [| |b|z|str|l|d]; simpl.
  1-6: split; [by eexists [_] | split; [by eexists|]];
       intros url json Hin; exfalso; apply (Hnopost _ _ _ Hin); by repeat constructor.
  destruct (App.truthy (dict_get_default d "tools" VNone)) eqn:Htools; simpl.
  - split; [|split; [by eexists|]].
    + destruct (Client.checked_json _); by exists [].
    + intros _ _ _. by exists d.
  - split; [by eexists [_] | split; [by eexists|]].
    intros url json Hin; exfalso; apply (Hnopost _ _ _ Hin); by repeat constructor.
Qed.

(** X22: When discovery lists no tool, the script sends the two GET requests,
    ends normally, and never calls the tool. *)
Theorem main_stops_without_tools (client : Client.AsyncClient) base_url top health d :
  client (Client.Get (Client._normalise_base_url base_url +:+ "/")) = App.Decoded health ->
  client (Client.Get (Client._normalise_base_url base_url +:+ "/mcp/tools"))
    = App.Decoded (VDict d) ->
  App.truthy (dict_get_default d "tools" VNone) = false ->
  Client.main client base_url top []
    = ([ Client.Get (Client._normalise_base_url base_url +:+ "/");
         Client.Get (Client._normalise_base_url base_url +:+ "/mcp/tools") ],
       Returns tt).
Proof.
  intros Hh Ht Hf.
  unfold Client.main, Client.session_bind, Client._get_json, Client.session_ret.
  simpl. rewrite Hh. simpl. rewrite Ht. simpl. by rewrite Hf.
Qed.

(** With a discovery that lists no tool. *)
Lemma main_stops_without_tools_witness :
  Client.main empty_discovery "http://localhost:8000/" 5 []
    = ([ Client.Get "http://localhost:8000/"; Client.Get "http://localhost:8000/mcp/tools" ],
       Returns tt).
Proof.
  apply (main_stops_without_tools empty_discovery "http://localhost:8000/" 5
           (VDict [("tools", VList [])]) [("tools", VList [])]); reflexivity.
Defined.

(* ===================================================================== *)
(** ** Making the server on an application *)
(* ===================================================================== *)



(* ===================================================================== *)
(** ** Examples *)
(* ===================================================================== *)

Example model_name_of_the_app_tool :
  replace_char "_" "" (title "list_purchase_requisitions") +:+ "ToolInput"
    = "ListPurchaseRequisitionsToolInput".
Proof. reflexivity. Qed.

Example base_path_is_stripped :
  _base_path (__init__ "/mcp//") = "/mcp" /\ _base_path (__init__ "/") = "".
Proof. split; reflexivity. Qed.

(** The routes of the application after [echo] is registered: those of
    before.  With routes whose paths have no parameter, the POST to the
    endpoint of [echo] finds no route, and the GET of discovery finds
    its own. *)
Example echo_request_finds_no_route :
  app echo_deployment = app fresh_deployment /\
  route_request same_path (app echo_deployment) POST "/mcp/tools/echo" = NotFound /\
  endpoint_run (route_request same_path (app echo_deployment) GET "/mcp/tools")
    = Some list_tools_endpoint.
Proof. repeat split; vm_compute; reflexivity. Qed.

(** A base path that does not start with a slash. *)
Example relative_base_path :
  construct FastAPI_routes "mcp"
    = Raises (OtherError "AssertionError" "A path prefix must start with '/'").
Proof. reflexivity. Qed.

(** Binding, and the messages of its errors. *)
Example missing_arguments :
  bind "f" [ {| p_name := "a"; p_kind := POSITIONAL_OR_KEYWORD; p_default := None |};
             {| p_name := "b"; p_kind := POSITIONAL_OR_KEYWORD; p_default := None |} ] []
    = Raises (TypeError "f() missing 2 required positional arguments: 'a' and 'b'") /\
  bind "echo" (signature echo) []
    = Raises (TypeError "echo() missing 1 required positional argument: 'x'") /\
  bind "echo" (signature echo) [("y", VInt 1)]
    = Raises (TypeError "echo() got an unexpected keyword argument 'y'").
Proof. repeat split; vm_compute; reflexivity. Qed.

(** Validation converts: a decimal string given for an [int] is set as an
    integer; a string that is no number is refused. *)
Example lax_conversion :
  model_validate lookup_model {[ "top" := VStr "5" ]}
    = inr {| field_values := [("top", VInt 5); ("select", VNone)];
             model_fields_set := ["top"] |} /\
  model_validate lookup_model {[ "top" := VStr "five" ]}
    = inl [ {| err_type := "int_parsing"; err_loc := ["top"];
               err_msg := "Input should be a valid integer, unable to parse string as an integer";
               err_input := InputValue (VStr "five") |} ].
Proof. split; vm_compute; reflexivity. Qed.
